(** * Runner discovery and readiness polling ([getRunner])

    A shallow embedding of [getRunner] and of the collaborators it talks to
    (the process environment, the two runner factories, the wall clock, the
    health endpoint of a runner and the timer), followed by the properties of
    the routine: which factory is used, how the polling loop is paced and
    bounded, and which outcome the caller observes. *)

From Stdlib Require Import ZArith List String Bool Lia DecimalString.
From ExtLib Require Import Structures.Monad Structures.MonadExc.
Import ListNotations.
Import MonadNotation.

Open Scope Z_scope.
Open Scope monad_scope.

(** ** Values exchanged with the collaborators *)

(** [runner.client] is typed [any] in the source: an opaque reference to the
    RPC client of one runner. *)
Definition Client := N.

(** [interface Runner { client: any; stop(): Promise<void> }].  The method
    [stop] acts on the outside world and is an operation of [Platform]. *)
Record Runner : Type := mkRunner { client : Client }.

(** What a collaborator rejects or throws with; opaque to [getRunner]. *)
Definition Reason := string.

(** The settlement of an awaited collaborator call. *)
Inductive Reply (A : Type) : Type :=
| Resolved (a : A)
| Rejected (reason : Reason).
Arguments Resolved {A} a.
Arguments Rejected {A} reason.

Definition resolved {A : Type} (r : Reply A) : bool :=
  match r with Resolved _ => true | Rejected _ => false end.

(** The two factories of the source, [LocalRunner] and [RenderRunner]. *)
Inductive Factory : Type := LocalRunner | RenderRunner.

(** A value thrown out of [getRunner]: either the [Error] object the routine
    allocates itself with [new Error(message)], or whatever a collaborator
    rejected with, passed on untouched. *)
Inductive Thrown : Type :=
| NewError (message : string)
| Propagated (reason : Reason).

(** ** The outside world

    Every collaborator is a deterministic transition on a world state [W];
    nothing else is assumed about it here.  [process_env] is the lookup
    [process.env[name]], which is [undefined] ([None]) for an unset name. *)
Class Platform (W : Type) : Type := {
  process_env : W -> string -> option string;
  LocalRunner_get : string -> W -> Reply Runner * W;
  RenderRunner_get : string -> W -> Reply Runner * W;
  Date_now : W -> Z * W;
  health_query : Client -> W -> Reply unit * W;
  setTimeout : Z -> W -> W;
  Runner_stop : Runner -> W -> Reply unit * W
}.

(** ** Observable interactions *)

Inductive Event : Type :=
| EvEnv (name : string) (value : option string)
| EvGet (f : Factory) (runnerId : string) (reply : Reply Runner)
| EvNow (t : Z)
| EvHealth (c : Client) (reply : Reply unit)
| EvSleep (ms : Z)
| EvStop (r : Runner) (reply : Reply unit).

Definition is_get (e : Event) : bool :=
  match e with EvGet _ _ _ => true | _ => false end.

Definition is_env (e : Event) : bool :=
  match e with EvEnv _ _ => true | _ => false end.

Definition is_health (e : Event) : bool :=
  match e with EvHealth _ _ => true | _ => false end.

Definition is_sleep (e : Event) : bool :=
  match e with EvSleep _ => true | _ => false end.

Definition is_stop (e : Event) : bool :=
  match e with EvStop _ _ => true | _ => false end.

(** A successful health query on client [c]. *)
Definition is_healthy (c : Client) (e : Event) : bool :=
  match e with
  | EvHealth c' (Resolved _) => N.eqb c c'
  | _ => false
  end.

(** Number of inter-attempt delays, and the time asked of the timer. *)
Definition sleeps (tr : list Event) : nat := List.length (filter is_sleep tr).

Definition attempts (tr : list Event) : nat := List.length (filter is_health tr).

Fixpoint slept_ms (tr : list Event) : Z :=
  match tr with
  | [] => 0
  | EvSleep ms :: tl => ms + slept_ms tl
  | _ :: tl => slept_ms tl
  end.

(** ** Asynchronous tasks

    An [async] computation is run to completion against the world: it returns,
    throws, or (for the fuelled loop only) is cut short.  The world keeps every
    effect performed before a throw, and the interactions are collected in
    order. *)
Inductive Outcome (A : Type) : Type :=
| Returned (a : A)
| Threw (e : Thrown)
| OutOfFuel.
Arguments Returned {A} a.
Arguments Threw {A} e.
Arguments OutOfFuel {A}.

Definition Task (W A : Type) : Type := W -> Outcome A * W * list Event.

Definition outcome {W A : Type} (r : Outcome A * W * list Event) : Outcome A :=
  fst (fst r).

Definition final {W A : Type} (r : Outcome A * W * list Event) : W :=
  snd (fst r).

Definition trace {W A : Type} (r : Outcome A * W * list Event) : list Event :=
  snd r.

Definition task_ret {W A : Type} (a : A) : Task W A :=
  fun w => (Returned a, w, []).

Definition task_bind {W A B : Type} (m : Task W A) (k : A -> Task W B) : Task W B :=
  fun w =>
    match m w with
    | (Returned a, w1, t1) =>
        match k a w1 with
        | (o, w2, t2) => (o, w2, t1 ++ t2)
        end
    | (Threw e, w1, t1) => (Threw e, w1, t1)
    | (OutOfFuel, w1, t1) => (OutOfFuel, w1, t1)
    end.

Definition task_throw {W A : Type} (e : Thrown) : Task W A :=
  fun w => (Threw e, w, []).

(** [try { m } catch (err) { h err }] *)
Definition task_catch {W A : Type} (m : Task W A) (h : Thrown -> Task W A) : Task W A :=
  fun w =>
    match m w with
    | (Threw e, w1, t1) =>
        match h e w1 with
        | (o, w2, t2) => (o, w2, t1 ++ t2)
        end
    | r => r
    end.

Definition out_of_fuel {W A : Type} : Task W A :=
  fun w => (OutOfFuel, w, []).

#[global] Instance Monad_Task (W : Type) : Monad (Task W) := {
  ret := @task_ret W;
  bind := @task_bind W
}.

#[global] Instance Exc_Task (W : Type) : MonadExc Thrown (Task W) := {
  raise := @task_throw W;
  catch := @task_catch W
}.

(** [await] on a collaborator: a rejection is thrown at the await.  Every
    awaited call settles here; a call that never settles, on which the
    source would wait for ever, is not a world of this model. *)
Definition await {W A : Type} (call : W -> Reply A * W) (ev : Reply A -> Event) : Task W A :=
  fun w =>
    match call w with
    | (Resolved a, w1) => (Returned a, w1, [ev (Resolved a)])
    | (Rejected reason, w1) => (Threw (Propagated reason), w1, [ev (Rejected reason)])
    end.

(** Template-literal interpolation of an integer: its decimal digits. *)
Definition number_to_string (n : Z) : string := NilZero.string_of_int (Z.to_int n).

Section Resolver.

Context {W : Type} {P : Platform W}.

(** [process.env[name]] *)
Definition env (name : string) : Task W (option string) :=
  fun w => let v := process_env w name in (Returned v, w, [EvEnv name v]).

(** [=== 'true'] on a value that is a string or [undefined]. *)
Definition strict_eq (v : option string) (s : string) : bool :=
  match v with
  | Some s' => String.eqb s' s
  | None => false
  end.

(** [await LocalRunner.get(runnerId)] and [await RenderRunner.get(runnerId)] *)
Definition get_local (runnerId : string) : Task W Runner :=
  await (LocalRunner_get runnerId) (EvGet LocalRunner runnerId).

Definition get_render (runnerId : string) : Task W Runner :=
  await (RenderRunner_get runnerId) (EvGet RenderRunner runnerId).

Definition now : Task W Z :=
  fun w => let (t, w1) := Date_now w in (Returned t, w1, [EvNow t]).

(** [await runner.client.health.query()] *)
Definition health (runner : Runner) : Task W unit :=
  await (health_query (client runner)) (EvHealth (client runner)).

(** [await new Promise((resolve) => setTimeout(resolve, ms))] *)
Definition sleep (ms : Z) : Task W unit :=
  fun w => (Returned tt, setTimeout ms w, [EvSleep ms]).

(** [await runner.stop()]; used by callers, never by [getRunner]. *)
Definition stop (runner : Runner) : Task W unit :=
  await (Runner_stop runner) (EvStop runner).

Definition timeoutMs (isRender : bool) : Z := if isRender then 90000 else 10000.

Definition not_started_message (runnerId : string) (timeout : Z) : string :=
  ("Runner '" ++ runnerId ++ "' hasn't started after "
     ++ number_to_string timeout ++ "ms,")%string.

(** The [while] loop of [getRunner]; [fuel] bounds the number of times the
    body runs.  The test is [!healthCheck && Date.now() - startTime < timeoutMs]:
    the clock is not read once [healthCheck] is set. *)
Fixpoint poll (fuel : nat) (runner : Runner) (startTime timeout : Z)
    (healthCheck : bool) : Task W bool :=
  continue <- (if negb healthCheck
               then t <- now ;; ret (t - startTime <? timeout)
               else ret false) ;;
  if continue : bool then
    match fuel with
    | O => out_of_fuel
    | S fuel' =>
        healthCheck' <- catch (health runner ;; ret true)
                              (fun _err => sleep 1000 ;; ret healthCheck) ;;
        poll fuel' runner startTime timeout healthCheck'
    end
  else ret healthCheck.

Definition getRunner (fuel : nat) (runnerId : string) : Task W Runner :=
  v <- env "IS_RENDER" ;;
  let isRender := strict_eq v "true" in
  runner <- (if isRender then get_render runnerId else get_local runnerId) ;;
  let timeout := timeoutMs isRender in
  let healthCheck := false in
  startTime <- now ;;
  healthCheck <- poll fuel runner startTime timeout healthCheck ;;
  if negb healthCheck
  then raise (NewError (not_started_message runnerId timeout))
  else ret runner.

(** *** Vocabulary of the statements *)

(** The deployment-mode flag as [getRunner] reads it in world [w]. *)
Definition isRender_in (w : W) : bool :=
  strict_eq (process_env w "IS_RENDER") "true".

Definition factory_of (isRender : bool) : Factory :=
  if isRender then RenderRunner else LocalRunner.

(** What factory [f] answers to [get(runnerId)] in world [w]. *)
Definition get_reply (f : Factory) (runnerId : string) (w : W) : Reply Runner * W :=
  match f with
  | LocalRunner => LocalRunner_get runnerId w
  | RenderRunner => RenderRunner_get runnerId w
  end.

(** The reading [Date.now()] would give in world [w]. *)
Definition clock (w : W) : Z := fst (Date_now w).

(** Time as the wall clock reports it never runs backwards, and a timer
    fires no earlier than asked. *)
Record MonotoneClock : Prop := {
  now_mono : forall w, clock w <= clock (snd (Date_now w));
  health_mono : forall c w, clock w <= clock (snd (health_query c w));
  sleep_least : forall ms w, clock w + ms <= clock (setTimeout ms w)
}.

(** Negligible latency: reading the clock and querying health take no
    measurable time, and a timer fires exactly when asked. *)
Record IdealClock : Prop := {
  now_pure : forall w, snd (Date_now w) = w;
  health_instant : forall c w, clock (snd (health_query c w)) = clock w;
  sleep_exact : forall ms w, clock (setTimeout ms w) = clock w + ms
}.

(** The world in which the loop test is evaluated again after one rejected
    health query issued from [w]. *)
Definition retry (c : Client) (w : W) : W :=
  setTimeout 1000 (snd (health_query c (snd (Date_now w)))).

(** The reply to attempt number [n] (counted from 0) when polling starts in
    world [w] and every earlier attempt was rejected. *)
Definition nth_reply (c : Client) (w : W) (n : nat) : Reply unit :=
  fst (health_query c (snd (Date_now (Nat.iter n (retry c) w)))).

(** How a polling phase can end. *)
Inductive PollEnd : Type := Healthy | TimedOut | Unfinished.

(** The interactions of one polling phase on client [c], started at clock
    reading [t0] with budget [budget]: every attempt follows a clock reading
    still inside the budget; a rejected attempt is followed by one 1000 ms
    delay and another round; the phase ends on the first accepted attempt or
    on the first reading outside the budget. *)
Inductive poll_trace (c : Client) (t0 budget : Z) : PollEnd -> list Event -> Prop :=
| pt_timed_out t :
    budget <= t - t0 ->
    poll_trace c t0 budget TimedOut [EvNow t]
| pt_healthy t :
    t - t0 < budget ->
    poll_trace c t0 budget Healthy [EvNow t; EvHealth c (Resolved tt)]
| pt_unfinished t :
    t - t0 < budget ->
    poll_trace c t0 budget Unfinished [EvNow t]
| pt_retry t reason e tl :
    t - t0 < budget ->
    poll_trace c t0 budget e tl ->
    poll_trace c t0 budget e
      (EvNow t :: EvHealth c (Rejected reason) :: EvSleep 1000 :: tl).

Definition end_outcome (e : PollEnd) : Outcome bool :=
  match e with
  | Healthy => Returned true
  | TimedOut => Returned false
  | Unfinished => OutOfFuel
  end.

End Resolver.

(** ** A small concrete world

    One runner per factory, a clock that only a timer advances, and a runner
    that rejects a given number of health queries before it answers (or never
    answers). *)
Module Sim.

Record World : Type := mkWorld {
  IS_RENDER : option string;
  time : Z;
  local_reply : Reply Runner;
  render_reply : Reply Runner;
  boot : option nat
}.

Definition lookup (w : World) (name : string) : option string :=
  if String.eqb name "IS_RENDER" then IS_RENDER w else None.

Definition query (c : Client) (w : World) : Reply unit * World :=
  match boot w with
  | None => (Rejected "ECONNREFUSED"%string, w)
  | Some O => (Resolved tt, w)
  | Some (S k) =>
      (Rejected "ECONNREFUSED"%string,
       mkWorld (IS_RENDER w) (time w) (local_reply w) (render_reply w) (Some k))
  end.

Definition timer (ms : Z) (w : World) : World :=
  mkWorld (IS_RENDER w) (time w + ms) (local_reply w) (render_reply w) (boot w).

#[global] Instance platform : Platform World := {
  process_env := lookup;
  LocalRunner_get := fun _ w => (local_reply w, w);
  RenderRunner_get := fun _ w => (render_reply w, w);
  Date_now := fun w => (time w, w);
  health_query := query;
  setTimeout := timer;
  Runner_stop := fun _ w => (Resolved tt, w)
}.

Definition handle7 : Runner := mkRunner 7%N.
Definition handle9 : Runner := mkRunner 9%N.

(** A local deployment whose runner answers after [k] rejected queries. *)
Definition local_world (k : option nat) : World :=
  mkWorld None 1700000000000 (Resolved handle7)
          (Rejected "render: unreachable"%string) k.

(** A hosted deployment whose runner answers after [k] rejected queries. *)
Definition render_world (k : option nat) : World :=
  mkWorld (Some "true"%string) 1700000000000
          (Rejected "local: spawn failed"%string) (Resolved handle9) k.

(** Local, three rejections before the runner answers. *)
Definition local3 : World := local_world (Some 3%nat).

(** Local, the runner answers at once. *)
Definition local_ready : World := local_world (Some 0%nat).

(** Local, the runner never answers. *)
Definition local_down : World := local_world None.

(** Hosted, the runner never answers. *)
Definition render_down : World := render_world None.

(** Hosted, and the hosting service refuses to hand out a runner. *)
Definition render_refused : World :=
  mkWorld (Some "true"%string) 0 (Resolved handle7)
          (Rejected "render: quota exceeded"%string) (Some 0%nat).

(** A caller that resolves a runner and stops it afterwards. *)
Definition resolve_then_stop (fuel : nat) (runnerId : string) : Task World unit :=
  runner <- getRunner fuel runnerId ;; stop runner.

End Sim.

(** ** A world with latency

    A local deployment whose runner accepts every health query, but only
    answers [latency] milliseconds after being asked. *)
Module SlowSim.

Record World : Type := mkWorld {
  time : Z;
  latency : Z
}.

Definition advance (ms : Z) (w : World) : World :=
  mkWorld (time w + ms) (latency w).

#[global] Instance platform : Platform World := {
  process_env := fun _ _ => None;
  LocalRunner_get := fun _ w => (Resolved (mkRunner 7%N), w);
  RenderRunner_get := fun _ w => (Rejected "render: unreachable"%string, w);
  Date_now := fun w => (time w, w);
  health_query := fun _ w => (Resolved tt, advance (latency w) w);
  setTimeout := advance;
  Runner_stop := fun _ w => (Resolved tt, w)
}.


End SlowSim.

(** ** A world whose clock moves between two readings

    A local deployment whose runner is healthy, on a machine where [step]
    milliseconds pass between any two consecutive readings of the clock (a
    suspended process, a clock set forward). *)
Module SkewSim.

Record World : Type := mkWorld {
  time : Z;
  step : Z
}.

Definition advance (ms : Z) (w : World) : World :=
  mkWorld (time w + ms) (step w).

#[global] Instance platform : Platform World := {
  process_env := fun _ _ => None;
  LocalRunner_get := fun _ w => (Resolved (mkRunner 7%N), w);
  RenderRunner_get := fun _ w => (Rejected "render: unreachable"%string, w);
  Date_now := fun w => (time w, advance (step w) w);
  health_query := fun _ w => (Resolved tt, w);
  setTimeout := advance;
  Runner_stop := fun _ w => (Resolved tt, w)
}.

End SkewSim.

(** ** A world where a health query takes time

    A local deployment whose runner takes [lag] milliseconds to answer a
    health query, rejects the first [boot] queries and accepts the next. *)
Module LagSim.

Record World : Type := mkWorld {
  time : Z;
  lag : Z;
  boot : nat
}.

Definition advance (ms : Z) (w : World) : World :=
  mkWorld (time w + ms) (lag w) (boot w).

Definition query (w : World) : Reply unit * World :=
  match boot w with
  | O => (Resolved tt, advance (lag w) w)
  | S k => (Rejected "ECONNREFUSED"%string, mkWorld (time w + lag w) (lag w) k)
  end.

#[global] Instance platform : Platform World := {
  process_env := fun _ _ => None;
  LocalRunner_get := fun _ w => (Resolved (mkRunner 7%N), w);
  RenderRunner_get := fun _ w => (Rejected "render: unreachable"%string, w);
  Date_now := fun w => (time w, w);
  health_query := fun _ => query;
  setTimeout := advance;
  Runner_stop := fun _ w => (Resolved tt, w)
}.

Definition handle : Runner := mkRunner 7%N.

(** Answers take 100 ms; the fourth query is accepted. *)
Definition brisk : World := mkWorld 0 100 3.

(** Answers take 3 seconds; the fourth query would be accepted. *)
Definition sluggish : World := mkWorld 0 3000 3.

End LagSim.

(** ** Polling, as the world sees it *)

Section PollingInTheWorld.

Context {W : Type} {P : Platform W}.

(** Polling the health endpoint of client [c] every 1000 ms against a budget
    counted from the reading [t0], started in world [w]: the clock of the
    world is read; past the budget the polling gives up; inside it the
    endpoint of the world is queried, an accepted query ends the polling
    healthy, and a rejected one is followed by a timer of 1000 ms of the
    world and by another round.  The relation gives the verdict, the world
    left behind and the interactions. *)
Inductive polling (c : Client) (t0 budget : Z) : W -> bool -> W -> list Event -> Prop :=
| polling_gives_up (w w1 : W) (t : Z) :
    Date_now w = (t, w1) ->
    budget <= t - t0 ->
    polling c t0 budget w false w1 [EvNow t]
| polling_healthy (w w1 w2 : W) (t : Z) :
    Date_now w = (t, w1) ->
    t - t0 < budget ->
    health_query c w1 = (Resolved tt, w2) ->
    polling c t0 budget w true w2 [EvNow t; EvHealth c (Resolved tt)]
| polling_retries (w w1 w2 w3 : W) (t : Z) (reason : Reason)
    (healthy : bool) (tl : list Event) :
    Date_now w = (t, w1) ->
    t - t0 < budget ->
    health_query c w1 = (Rejected reason, w2) ->
    polling c t0 budget (setTimeout 1000 w2) healthy w3 tl ->
    polling c t0 budget w healthy w3
      (EvNow t :: EvHealth c (Rejected reason) :: EvSleep 1000 :: tl).



End PollingInTheWorld.

(** ** Effects of the loop-free routines

    The routines below have no loop, so they need no fuel: run against a
    world they finish or throw.  The kind of value thrown [X] and of
    interaction recorded [E] differ from one module to the next. *)
Inductive Result (X A : Type) : Type :=
| Done (a : A)
| Raised (x : X).
Arguments Done {X A} a.
Arguments Raised {X A} x.

Definition Eff (X E W A : Type) : Type := W -> Result X A * W * list E.

Definition result {X E W A : Type} (r : Result X A * W * list E) : Result X A :=
  fst (fst r).

Definition world {X E W A : Type} (r : Result X A * W * list E) : W :=
  snd (fst r).

Definition effects {X E W A : Type} (r : Result X A * W * list E) : list E :=
  snd r.

Definition eff_ret {X E W A : Type} (a : A) : Eff X E W A :=
  fun w => (Done a, w, []).

Definition eff_bind {X E W A B : Type} (m : Eff X E W A) (k : A -> Eff X E W B)
    : Eff X E W B :=
  fun w =>
    match m w with
    | (Done a, w1, t1) =>
        match k a w1 with
        | (o, w2, t2) => (o, w2, t1 ++ t2)
        end
    | (Raised x, w1, t1) => (Raised x, w1, t1)
    end.

Definition eff_raise {X E W A : Type} (x : X) : Eff X E W A :=
  fun w => (Raised x, w, []).

Definition eff_catch {X E W A : Type} (m : Eff X E W A) (h : X -> Eff X E W A)
    : Eff X E W A :=
  fun w =>
    match m w with
    | (Raised x, w1, t1) =>
        match h x w1 with
        | (o, w2, t2) => (o, w2, t1 ++ t2)
        end
    | r => r
    end.

#[global] Instance Monad_Eff (X E W : Type) : Monad (Eff X E W) := {
  ret := @eff_ret X E W;
  bind := @eff_bind X E W
}.

#[global] Instance Exc_Eff (X E W : Type) : MonadExc X (Eff X E W) := {
  raise := @eff_raise X E W;
  catch := @eff_catch X E W
}.

(** A synchronous call that only leaves a mark (a state setter, a log line). *)
Definition emit {X E W : Type} (e : E) : Eff X E W unit :=
  fun w => (Done tt, w, [e]).

(** [await] on a collaborator; [rejection] says how its rejection is thrown. *)
Definition awaiting {X E W A : Type} (call : W -> Reply A * W)
    (ev : Reply A -> E) (rejection : Reason -> X) : Eff X E W A :=
  fun w =>
    match call w with
    | (Resolved a, w1) => (Done a, w1, [ev (Resolved a)])
    | (Rejected reason, w1) => (Raised (rejection reason), w1, [ev (Rejected reason)])
    end.

(** ** The file service (object storage wrapper) *)
Module FileService.

(** A [Buffer]: a sequence of bytes. *)
Definition Buffer := string.

(** [Buffer.concat(chunks)] *)
Definition Buffer_concat (chunks : list Buffer) : Buffer := String.concat "" chunks.

(** What a [Readable] emits, in order, over its life. *)
Inductive StreamEvent : Type :=
| OnData (chunk : Buffer)
| OnError (err : Reason)
| OnEnd.

(** [response.Body]: absent, present but not a [Readable], or a [Readable]. *)
Inductive BodyValue : Type :=
| Undefined
| NotReadable
| ReadableStream (emits : list StreamEvent).

(** The output of a command; only [Body] is ever read. *)
Record CommandOutput : Type := mkOutput { Body : BodyValue }.

Record ObjectIdentifier : Type := mkObject { Key : string }.

Inductive Command : Type :=
| PutObjectCommand (Bucket : option string) (Key : string) (Body : string)
| GetObjectCommand (Bucket : option string) (Key : string)
| DeleteObjectsCommand (Bucket : option string) (Objects : list ObjectIdentifier).

(** [client.send(command)] *)
Class S3Client (W : Type) : Type := {
  client_send : Command -> W -> Reply CommandOutput * W
}.

Inductive S3Event : Type :=
| Sent (command : Command) (reply : Reply CommandOutput)
| Logged (e : Thrown).

Definition is_sent (e : S3Event) : bool :=
  match e with Sent _ _ => true | Logged _ => false end.

Definition is_logged (e : S3Event) : bool :=
  match e with Logged _ => true | Sent _ _ => false end.

(** How the promise returned by [getFile] stands once the stream has emitted
    all it ever emits. *)
Inductive Promise (A : Type) : Type :=
| Fulfilled (a : A)
| RejectedWith (e : Thrown)
| Pending.
Arguments Fulfilled {A} a.
Arguments RejectedWith {A} e.
Arguments Pending {A}.

Section Methods.

Context {W : Type} {S3 : S3Client W}.

(** [bucket = process.env['AWS_BUCKET_NAME'] as string]: unset gives
    [undefined]. *)
Variable bucket : option string.

(** [Buffer.prototype.toString()]: UTF-8 decoding. *)
Variable toString : Buffer -> string.

Definition send (command : Command) : Eff Thrown S3Event W CommandOutput :=
  awaiting (client_send command) (Sent command) Propagated.

Definition console_log (e : Thrown) : Eff Thrown S3Event W unit :=
  emit (Logged e).

Definition upload (fileContents fileName : string)
    : Eff Thrown S3Event W (option string) :=
  catch (send (PutObjectCommand bucket fileName fileContents) ;;
         ret (Some fileName))
        (fun e => console_log e ;; ret None).

(** The three listeners put on the body: ['error'] rejects, ['data'] pushes
    the chunk, ['end'] resolves with the decoded concatenation.  A promise
    settles once; what the stream emits afterwards changes nothing. *)
Fixpoint listen (emits : list StreamEvent) (responseDataChunks : list Buffer)
    : Promise string :=
  match emits with
  | [] => Pending
  | OnError err :: _ => RejectedWith (Propagated err)
  | OnData chunk :: rest => listen rest (responseDataChunks ++ [chunk])
  | OnEnd :: _ => Fulfilled (toString (Buffer_concat responseDataChunks))
  end.

Definition getFile (fileName : string) : W -> Promise string * W * list S3Event :=
  fun w =>
    let getObjectCommand := GetObjectCommand bucket fileName in
    match client_send getObjectCommand w with
    | (Resolved response, w1) =>
        (match Body response with
         | ReadableStream emits => listen emits []
         | _ => RejectedWith
                  (NewError "Response body is undefined or not a Readable stream")
         end, w1, [Sent getObjectCommand (Resolved response)])
    | (Rejected err, w1) =>
        (RejectedWith (Propagated err), w1, [Sent getObjectCommand (Rejected err)])
    end.

Definition deleteFiles (fileNames : list string) : Eff Thrown S3Event W unit :=
  let deleteObjectsCommand :=
    DeleteObjectsCommand bucket (map (fun fileName => mkObject fileName) fileNames) in
  send deleteObjectsCommand ;; ret tt.

(** *** Vocabulary of the statements *)

Definition promise (r : Promise string * W * list S3Event) : Promise string :=
  fst (fst r).

(** Commands sent, in order. *)
Fixpoint sent (tr : list S3Event) : list Command :=
  match tr with
  | [] => []
  | Sent command _ :: tl => command :: sent tl
  | Logged _ :: tl => sent tl
  end.

(** A store that hands back what was put: after an accepted put, a get of
    the same key in the same bucket answers with a stream that ends, whose
    chunks, however cut, add up to the encoded contents. *)
Definition keeps_objects (encode : string -> Buffer) : Prop :=
  forall (b : option string) (key contents : string) (w w1 : W) (out : CommandOutput),
    client_send (PutObjectCommand b key contents) w = (Resolved out, w1) ->
    exists (chunks : list Buffer) (rest : list StreamEvent) (w2 : W),
      client_send (GetObjectCommand b key) w1 =
        (Resolved (mkOutput (ReadableStream (map OnData chunks ++ OnEnd :: rest))), w2) /\
      Buffer_concat chunks = encode contents.

(** A store that cannot be reached: every command is rejected with
    [reason]. *)
Definition unreachable (reason : Reason) : Prop :=
  forall (command : Command) (w : W), fst (client_send command w) = Rejected reason.

End Methods.

End FileService.

(** ** An in-memory object store

    Objects are kept newest first; a get streams the contents one byte per
    chunk; a get of a missing key is rejected. *)
Module MemStore.

Import FileService.

Definition World : Type := list (string * string).

Fixpoint find (key : string) (w : World) : option string :=
  match w with
  | [] => None
  | (k, v) :: tl => if String.eqb k key then Some v else find key tl
  end.

Fixpoint bytes (s : string) : list Buffer :=
  match s with
  | EmptyString => []
  | String a tl => String a EmptyString :: bytes tl
  end.

Definition serve (command : Command) (w : World) : Reply CommandOutput * World :=
  match command with
  | PutObjectCommand _ key contents => (Resolved (mkOutput Undefined), (key, contents) :: w)
  | GetObjectCommand _ key =>
      match find key w with
      | Some contents =>
          (Resolved (mkOutput (ReadableStream (map OnData (bytes contents) ++ [OnEnd]))), w)
      | None => (Rejected "NoSuchKey"%string, w)
      end
  | DeleteObjectsCommand _ objects =>
      (Resolved (mkOutput Undefined),
       filter (fun kv => negb (existsb (fun o => String.eqb (Key o) (fst kv)) objects)) w)
  end.

#[global] Instance client : S3Client World := { client_send := serve }.

End MemStore.

(** ** An object store that is down *)
Module DownStore.

Import FileService.

Definition World : Type := unit.

#[global] Instance client : S3Client World := {
  client_send := fun _ w => (Rejected "ECONNREFUSED"%string, w)
}.

End DownStore.

(** ** An object store that answers every command the same way *)
Module ScriptedStore.

Import FileService.

Definition World : Type := Reply CommandOutput.

#[global] Instance client : S3Client World := {
  client_send := fun _ w => (w, w)
}.

(** A body that arrives in three chunks and ends. *)
Definition three_chunks : World :=
  Resolved (mkOutput (ReadableStream
    (map OnData ["he"%string; "ll"%string; "o"%string] ++ OnEnd :: [OnData "!"%string]))).

(** A body that breaks after two chunks. *)
Definition broken : World :=
  Resolved (mkOutput (ReadableStream
    (map OnData ["he"%string; "ll"%string] ++ OnError "ECONNRESET"%string :: [OnEnd]))).

(** A body that stalls after two chunks. *)
Definition stalled : World :=
  Resolved (mkOutput (ReadableStream (map OnData ["he"%string; "ll"%string]))).

(** An answer without a body. *)
Definition bodyless : World := Resolved (mkOutput Undefined).

End ScriptedStore.

(** ** The integration picker ([Integration], [triggerAuth], [onClick]) *)
Module IntegrationsList.

Record ApiPublicIntegration : Type := mkIntegration {
  unique_key : string;
  provider : string;
  logo : string
}.

(** [GetPublicProvider['Success']]: only [data] is read, and only passed on. *)
Record ProviderSuccess : Type := mkSuccess { data : string }.

(** [getProvider] and [navigate] are the two awaited collaborators. *)
Class Api (W : Type) : Type := {
  getProvider : string -> W -> Reply ProviderSuccess * W;
  navigate : string -> W -> Reply unit * W
}.

Inductive UiEvent : Type :=
| PreventDefault
| StopPropagation
| SetLoading (loading : bool)
| SetError (error : option string)
| ConsoleLog (err : Reason)
| GetProvider (provider : string) (reply : Reply ProviderSuccess)
| StoreSet (data : string) (integration : ApiPublicIntegration)
| Navigate (to : string) (reply : Reply unit)
| UnhandledRejection (err : Reason).


Definition is_set_error (e : UiEvent) : bool :=
  match e with SetError _ => true | _ => false end.

Definition is_get_provider (e : UiEvent) : bool :=
  match e with GetProvider _ _ => true | _ => false end.

Definition is_store_set (e : UiEvent) : bool :=
  match e with StoreSet _ _ => true | _ => false end.

Definition is_navigate (e : UiEvent) : bool :=
  match e with Navigate _ _ => true | _ => false end.

Section Component.

Context {W : Type} {A : Api W}.

(** The props and the state captured by the render that made the handlers. *)
Variable integration : ApiPublicIntegration.
Variable loading : bool.

Definition Handler (R : Type) : Type := Eff Reason UiEvent W R.

Definition setLoading (b : bool) : Handler unit := emit (SetLoading b).
Definition setError (e : option string) : Handler unit := emit (SetError e).
Definition console_log (err : Reason) : Handler unit := emit (ConsoleLog err).
Definition store_set (d : string) (i : ApiPublicIntegration) : Handler unit :=
  emit (StoreSet d i).

Definition triggerAuth : Handler unit :=
  setLoading true ;;
  provider <- catch
    (p <- awaiting (getProvider (provider integration))
                   (GetProvider (provider integration)) (fun err => err) ;;
     ret (Some p))
    (fun err =>
       console_log err ;;
       setError (Some "An error occurred while loading configuration"%string) ;;
       setLoading false ;;
       ret None) ;;
  match provider with
  | None => ret tt
  | Some provider =>
      store_set (data provider) integration ;;
      setLoading false ;;
      awaiting (navigate "/go") (Navigate "/go") (fun err => err)
  end.

(** [void f()]: the call is made and its promise dropped; a rejection is
    nobody's to catch. *)
Definition void (m : Handler unit) : Handler unit :=
  fun w =>
    match m w with
    | (Done _, w1, tr) => (Done tt, w1, tr)
    | (Raised err, w1, tr) => (Done tt, w1, tr ++ [UnhandledRejection err])
    end.

Definition onClick : Handler unit :=
  emit PreventDefault ;;
  emit StopPropagation ;;
  if loading then ret tt else void triggerAuth.

End Component.

End IntegrationsList.

(** A backend for the picker: what [getProvider] and [navigate] answer. *)
Module PickerSim.

Import IntegrationsList.

Record World : Type := mkWorld {
  provider_reply : Reply ProviderSuccess;
  navigate_reply : Reply unit
}.

#[global] Instance api : Api World := {
  getProvider := fun _ w => (provider_reply w, w);
  navigate := fun _ w => (navigate_reply w, w)
}.

Definition github : ApiPublicIntegration :=
  mkIntegration "github-prod" "github" "/logos/github.svg".

Definition healthy : World := mkWorld (Resolved (mkSuccess "oauth2")) (Resolved tt).

Definition offline : World := mkWorld (Rejected "503"%string) (Resolved tt).

Definition lost : World :=
  mkWorld (Resolved (mkSuccess "oauth2")) (Rejected "no route"%string).

End PickerSim.

(** ** The sync row ([SyncRow], [syncCommand], [confirmFullRefresh]) *)
Module SyncRow.

(** [RunSyncCommand], as the component uses it. *)
Inductive RunSyncCommand : Type := PAUSE | UNPAUSE | RUN | RUN_FULL | CANCEL.

(** The fields of [SyncResponse] that the handlers and the menu read. *)
Record SyncResponse : Type := mkSync {
  id : string;
  name : string;
  schedule_id : string;
  nango_connection_id : Z;
  status : string;
  schedule_status : string;
  sync_type : string;
  latest_sync_status : option string
}.

(** The parsed body of a response, as far as [data.error] can tell: [null]
    or [undefined], or any other value, whose [error] property may be
    missing. *)
Inductive JsonValue : Type :=
| Nullish
| Object (error : option string).

(** A [Response]: its [status] (named [http_status] here, [status] being
    taken by the sync) and what [json()] settles with. *)
Record Response : Type := mkResponse {
  http_status : Z;
  json : Reply JsonValue
}.

(** A cache key of [swr]: a string or anything else. *)
Inductive CacheKey : Type :=
| StringKey (key : string)
| OtherKey.

(** [runCommandSyncAPI] may resolve with no response at all (the handlers
    read it with [res?.]); [mutate] revalidates the keys a filter accepts. *)
Class SyncApi (W : Type) : Type := {
  runCommandSyncAPI :
    RunSyncCommand -> string -> Z -> string -> string -> string ->
    W -> Reply (option Response) * W;
  mutate : (CacheKey -> bool) -> W -> Reply unit * W
}.

Inductive Variant : Type := success | error_variant.

Inductive UiEvent : Type :=
| SetSyncCommandButtonsDisabled (b : bool)
| SetShowPauseStartLoader (b : bool)
| SetShowInterruptLoader (b : bool)
| SetShowTriggerIncrementalLoader (b : bool)
| SetModalShowSpinner (b : bool)
| SetOpenConfirm (b : bool)
| RunCommand (command : RunSyncCommand) (scheduleId : string)
    (nango_connection_id : Z) (syncId syncName provider : string)
    (reply : Reply (option Response))
| Mutate (reply : Reply unit)
| ReadJson (reply : Reply JsonValue)
| Toast (title : option string) (variant : Variant).

(** What a handler can throw: a [TypeError] raised by reading a property of
    [undefined] or [null], or a collaborator's rejection. *)
Inductive UiThrown : Type :=
| TypeError (reading : string)
| Rejection (reason : Reason).

Definition is_run_command (e : UiEvent) : bool :=
  match e with RunCommand _ _ _ _ _ _ _ => true | _ => false end.

Definition is_toast (e : UiEvent) : bool :=
  match e with Toast _ _ => true | _ => false end.

Definition is_unlock (e : UiEvent) : bool :=
  match e with SetSyncCommandButtonsDisabled false => true | _ => false end.

Definition is_lock (e : UiEvent) : bool :=
  match e with SetSyncCommandButtonsDisabled true => true | _ => false end.

(** [(key) => typeof key === 'string' && key.startsWith(`/api/v1/sync`)] *)
Definition sync_keys (key : CacheKey) : bool :=
  match key with
  | StringKey k => String.prefix "/api/v1/sync" k
  | OtherKey => false
  end.

(** The entries of the popover menu. *)
Inductive MenuItem : Type :=
| PauseOrResume
| CancelExecution
| Trigger
| TriggerFullRefresh
| ViewLogs.

Section Component.

Context {W : Type} {A : SyncApi W}.

(** [UserFacingSyncCommand], declared with the types. *)
Variable UserFacingSyncCommand : RunSyncCommand -> string.

(** Props and state captured by the render that made the handlers. *)
Variable sync : SyncResponse.
Variable provider : option string.
Variable syncCommandButtonsDisabled : bool.

Definition Handler (R : Type) : Type := Eff UiThrown UiEvent W R.

(** [provider || ''] *)
Definition provider_or_empty : string :=
  match provider with
  | Some p => if String.eqb p "" then ""%string else p
  | None => ""%string
  end.

Definition run (command : RunSyncCommand) (scheduleId : string)
    (nango_connection_id : Z) (syncId syncName : string) : Handler (option Response) :=
  awaiting
    (runCommandSyncAPI command scheduleId nango_connection_id syncId syncName
       provider_or_empty)
    (RunCommand command scheduleId nango_connection_id syncId syncName
       provider_or_empty)
    Rejection.

(** [res?.status === 200] *)
Definition status_is_200 (res : option Response) : bool :=
  match res with
  | Some r => Z.eqb (http_status r) 200
  | None => false
  end.

(** [await res?.json()] *)
Definition read_json (res : option Response) : Handler JsonValue :=
  match res with
  | Some r => awaiting (fun w => (json r, w)) ReadJson Rejection
  | None => ret Nullish
  end.

(** [data.error] *)
Definition error_of (data : JsonValue) : Handler (option string) :=
  match data with
  | Nullish => raise (TypeError "error")
  | Object e => ret e
  end.

Definition mutate_sync : Handler unit :=
  awaiting (mutate sync_keys) Mutate Rejection.

Definition toast (title : option string) (variant : Variant) : Handler unit :=
  emit (Toast title variant).

Definition resetLoaders : Handler unit :=
  emit (SetShowPauseStartLoader false) ;;
  emit (SetShowInterruptLoader false) ;;
  emit (SetShowTriggerIncrementalLoader false).

Definition syncCommand (command : RunSyncCommand) (nango_connection_id : Z)
    (scheduleId syncId syncName : string) : Handler unit :=
  if syncCommandButtonsDisabled then ret tt
  else
    emit (SetSyncCommandButtonsDisabled true) ;;
    res <- run command scheduleId nango_connection_id syncId syncName ;;
    (if status_is_200 res then
       mutate_sync ;;
       let niceCommand := UserFacingSyncCommand command in
       toast (Some ("The sync was successfully " ++ niceCommand)%string) success
     else
       data <- read_json res ;;
       title <- error_of data ;;
       toast title error_variant) ;;
    emit (SetSyncCommandButtonsDisabled false) ;;
    resetLoaders.

(** [sync] is an object, so [!sync] is false and only the flag guards. *)
Definition confirmFullRefresh : Handler unit :=
  if syncCommandButtonsDisabled then ret tt
  else
    emit (SetSyncCommandButtonsDisabled true) ;;
    emit (SetModalShowSpinner true) ;;
    res <- run RUN_FULL (schedule_id sync) (nango_connection_id sync) (id sync)
             (name sync) ;;
    (if status_is_200 res then
       mutate_sync ;;
       toast (Some "The full resync was successfully triggered"%string) success
     else
       data <- read_json res ;;
       title <- error_of data ;;
       toast title error_variant) ;;
    emit (SetModalShowSpinner false) ;;
    emit (SetSyncCommandButtonsDisabled false) ;;
    emit (SetOpenConfirm false).

(** The pause/resume entry: the command its click sends and its label. *)
Definition pause_command : RunSyncCommand :=
  if String.eqb (schedule_status sync) "STARTED" then PAUSE else UNPAUSE.

Definition pause_label : string :=
  if negb (String.eqb (schedule_status sync) "STARTED")
  then "Resume Schedule"%string
  else "Pause Schedule"%string.

Definition pause_onClick : Handler unit :=
  emit (SetShowPauseStartLoader true) ;;
  syncCommand pause_command (nango_connection_id sync) (schedule_id sync)
    (id sync) (name sync).

(** The entries the popover shows, top to bottom. *)
Definition menu : list MenuItem :=
  [PauseOrResume]
    ++ (if String.eqb (status sync) "RUNNING" then [CancelExecution] else [])
    ++ (if negb (String.eqb (status sync) "RUNNING") then [Trigger] else [])
    ++ (if negb (String.eqb (status sync) "RUNNING") then [TriggerFullRefresh] else [])
    ++ [ViewLogs].

(** The status cell: the tags shown for the latest run. *)
Definition status_tags : list string :=
  match latest_sync_status sync with
  | Some s =>
      (if String.eqb s "PAUSED" then ["Paused"%string] else [])
        ++ (if String.eqb s "STOPPED" then ["Failed"%string] else [])
        ++ (if String.eqb s "RUNNING" then ["Syncing"%string] else [])
        ++ (if String.eqb s "SUCCESS" then ["Success"%string] else [])
  | None => ["NEVER RUN"%string]
  end.

End Component.

End SyncRow.

(** A backend for the sync row: what the command endpoint and the cache
    answer. *)
Module RowSim.

Import SyncRow.

Record World : Type := mkWorld {
  command_reply : Reply (option Response);
  mutate_reply : Reply unit;
  calls : nat
}.

#[global] Instance api : SyncApi World := {
  runCommandSyncAPI := fun _ _ _ _ _ _ w =>
    (command_reply w, mkWorld (command_reply w) (mutate_reply w) (S (calls w)));
  mutate := fun _ w => (mutate_reply w, w)
}.

Definition nice (command : RunSyncCommand) : string :=
  match command with
  | PAUSE => "paused"
  | UNPAUSE => "started"
  | RUN => "triggered"
  | RUN_FULL => "run fully"
  | CANCEL => "cancelled"
  end.

Definition contacts : SyncResponse :=
  mkSync "sync-1" "contacts" "sched-1" 42 "SUCCESS" "STARTED" "incremental"
         (Some "SUCCESS"%string).

Definition accepted : World :=
  mkWorld (Resolved (Some (mkResponse 200 (Resolved (Object None))))) (Resolved tt) 0.

Definition refused : World :=
  mkWorld (Resolved (Some (mkResponse 400
             (Resolved (Object (Some "sync is already running"%string))))))
          (Resolved tt) 0.

Definition silent : World := mkWorld (Resolved None) (Resolved tt) 0.

End RowSim.

(** ** Reading a polling trace *)

Section PollTrace.

Variables (c : Client) (t0 budget : Z).

Lemma poll_trace_only_polls (e : PollEnd) (tl : list Event) :
  poll_trace c t0 budget e tl ->
  filter is_get tl = [] /\ filter is_env tl = [] /\ filter is_stop tl = [].
Proof. induction 1; cbn; auto. Qed.

Lemma poll_trace_sleep_1000 (e : PollEnd) (tl : list Event) :
  poll_trace c t0 budget e tl ->
  forall ms, In (EvSleep ms) tl -> ms = 1000.
Proof.
  induction 1; cbn; intros ms Hin;
    repeat (destruct Hin as [Hin|Hin]; try discriminate; try tauto).
  - congruence.
  - eauto.
Qed.

Lemma poll_trace_healthy_last (tl : list Event) :
  poll_trace c t0 budget Healthy tl ->
  exists body, tl = body ++ [EvHealth c (Resolved tt)].
Proof.
  intros H. remember Healthy as e eqn:He.
  induction H as [t Ht|t Ht|t Ht|t reason e tl Ht Htl IH]; try discriminate.
  - exists [EvNow t]. reflexivity.
  - destruct (IH He) as [body ->].
    exists (EvNow t :: EvHealth c (Rejected reason) :: EvSleep 1000 :: body).
    reflexivity.
Qed.

Lemma poll_trace_timed_out_last (tl : list Event) :
  poll_trace c t0 budget TimedOut tl ->
  exists body t, tl = body ++ [EvNow t] /\ budget <= t - t0.
Proof.
  intros H. remember TimedOut as e eqn:He.
  induction H as [t Ht|t Ht|t Ht|t reason e tl Ht Htl IH]; try discriminate.
  - exists [], t. split; [reflexivity | exact Ht].
  - destruct (IH He) as [body [t' [-> Hout]]].
    exists (EvNow t :: EvHealth c (Rejected reason) :: EvSleep 1000 :: body), t'.
    split; [reflexivity | exact Hout].
Qed.

Lemma poll_trace_healthy_seen (e : PollEnd) (tl : list Event) :
  poll_trace c t0 budget e tl ->
  existsb (is_healthy c) tl = match e with Healthy => true | _ => false end.
Proof.
  induction 1; cbn; auto.
  rewrite N.eqb_refl. reflexivity.
Qed.

Lemma poll_trace_counts (e : PollEnd) (tl : list Event) :
  poll_trace c t0 budget e tl ->
  attempts tl = (sleeps tl + match e with Healthy => 1 | _ => 0 end)%nat /\
  slept_ms tl = 1000 * Z.of_nat (sleeps tl).
Proof.
  intros H. unfold attempts, sleeps.
  induction H as [t Ht|t Ht|t Ht|t reason e tl Ht Htl IH];
    cbn -[Z.of_nat Z.mul Z.add]; try (split; [reflexivity | lia]).
  destruct IH as [IHa IHs].
  split; [rewrite IHa; reflexivity | rewrite IHs; lia].
Qed.

Lemma poll_trace_rejection_retried (e : PollEnd) (tl : list Event) :
  poll_trace c t0 budget e tl ->
  forall i c' reason,
    nth_error tl i = Some (EvHealth c' (Rejected reason)) ->
    nth_error tl (S i) = Some (EvSleep 1000).
Proof.
  induction 1 as [t Ht|t Ht|t Ht|t reason e tl Ht Htl IH]; intros i c' reason' Hi;
    destruct i as [|[|[|i]]]; cbn in Hi; try discriminate.
  - reflexivity.
  - cbn. eauto.
Qed.

Lemma poll_trace_loop_goes_on (e : PollEnd) (tl : list Event) :
  poll_trace c t0 budget e tl ->
  forall i c' reason,
    nth_error tl i = Some (EvHealth c' (Rejected reason)) ->
    exists t, nth_error tl (S (S i)) = Some (EvNow t).
Proof.
  induction 1 as [t Ht|t Ht|t Ht|t reason e tl Ht Htl IH]; intros i c' reason' Hi;
    destruct i as [|[|[|i]]]; cbn in Hi; try discriminate.
  - destruct Htl; eexists; reflexivity.
  - exact (IH i c' reason' Hi).
Qed.

End PollTrace.

(** ** How a run unfolds *)

Section Unfolding.

Context {W : Type} {P : Platform W}.

#[local] Arguments not_started_message : simpl never.

Lemma poll_healthy_stops (fuel : nat) (runner : Runner) (t0 budget : Z) (w : W) :
  poll fuel runner t0 budget true w = (Returned true, w, []).
Proof. destruct fuel; reflexivity. Qed.

(** One evaluation of the loop test and, when it holds, of the loop body. *)
Lemma poll_unfold (fuel : nat) (runner : Runner) (t0 budget : Z) (w : W) :
  poll fuel runner t0 budget false w =
  let (t, w1) := Date_now w in
  if t - t0 <? budget then
    match fuel with
    | O => (OutOfFuel, w1, [EvNow t])
    | S fuel' =>
        match health_query (client runner) w1 with
        | (Resolved _, w2) =>
            (Returned true, w2, [EvNow t; EvHealth (client runner) (Resolved tt)])
        | (Rejected reason, w2) =>
            match poll fuel' runner t0 budget false (setTimeout 1000 w2) with
            | (o, w3, tr) =>
                (o, w3,
                 EvNow t :: EvHealth (client runner) (Rejected reason)
                   :: EvSleep 1000 :: tr)
            end
        end
    end
  else (Returned false, w1, [EvNow t]).
Proof.
  destruct fuel as [|fuel']; cbn; unfold task_bind, now;
    destruct (Date_now w) as [t w1]; cbn;
    destruct (t - t0 <? budget); cbn; try reflexivity.
  unfold task_catch, task_bind, health, await.
  destruct (health_query (client runner) w1) as [[[]|reason] w2]; cbn.
  - rewrite poll_healthy_stops. reflexivity.
  - destruct (poll fuel' runner t0 budget false (setTimeout 1000 w2)) as [[o w3] tr].
    reflexivity.
Qed.

(** The whole routine: the flag is read, one factory is asked, and either its
    rejection ends the call or the clock is read and polling starts. *)
Lemma getRunner_unfold (fuel : nat) (runnerId : string) (w : W) :
  getRunner fuel runnerId w =
  let v := process_env w "IS_RENDER" in
  let f := factory_of (isRender_in w) in
  match get_reply f runnerId w with
  | (Rejected reason, w1) =>
      (Threw (Propagated reason), w1,
       [EvEnv "IS_RENDER" v; EvGet f runnerId (Rejected reason)])
  | (Resolved runner, w1) =>
      let (t0, w2) := Date_now w1 in
      match poll fuel runner t0 (timeoutMs (isRender_in w)) false w2 with
      | (o, w3, tr) =>
          (match o with
           | Returned true => Returned runner
           | Returned false =>
               Threw (NewError
                        (not_started_message runnerId (timeoutMs (isRender_in w))))
           | Threw e => Threw e
           | OutOfFuel => OutOfFuel
           end, w3,
           EvEnv "IS_RENDER" v :: EvGet f runnerId (Resolved runner) :: EvNow t0 :: tr)
      end
  end.
Proof.
  unfold getRunner, isRender_in. cbn. unfold task_bind, env. cbn.
  destruct (strict_eq (process_env w "IS_RENDER") "true"); cbn;
    unfold get_render, get_local, await.
  - destruct (RenderRunner_get runnerId w) as [[runner|reason] w1]; cbn; [|reflexivity].
    unfold now. destruct (Date_now w1) as [t0 w2]; cbn.
    destruct (poll fuel runner t0 90000 false w2) as [[[[|]| |] w3] tr];
      cbn; rewrite ?app_nil_r; reflexivity.
  - destruct (LocalRunner_get runnerId w) as [[runner|reason] w1]; cbn; [|reflexivity].
    unfold now. destruct (Date_now w1) as [t0 w2]; cbn.
    destruct (poll fuel runner t0 10000 false w2) as [[[[|]| |] w3] tr];
      cbn; rewrite ?app_nil_r; reflexivity.
Qed.

(** Whatever the world does, a polling phase follows the protocol of
    [poll_trace], and its result says how it ended. *)
Lemma poll_shape (fuel : nat) (runner : Runner) (t0 budget : Z) (w : W) :
  exists e : PollEnd,
    outcome (poll fuel runner t0 budget false w) = end_outcome e /\
    poll_trace (client runner) t0 budget e (trace (poll fuel runner t0 budget false w)).
Proof.
  revert w. induction fuel as [|fuel' IH]; intros w; rewrite poll_unfold;
    destruct (Date_now w) as [t w1];
    destruct (Z.ltb_spec (t - t0) budget) as [Hin|Hout].
  - exists Unfinished. split; [reflexivity | now constructor].
  - exists TimedOut. split; [reflexivity | now constructor].
  - destruct (health_query (client runner) w1) as [[[]|reason] w2].
    + exists Healthy. split; [reflexivity | now constructor].
    + specialize (IH (setTimeout 1000 w2)).
      destruct (poll fuel' runner t0 budget false (setTimeout 1000 w2)) as [[o w3] tr].
      destruct IH as [e [Ho Htr]]. exists e. split; [exact Ho | now constructor].
  - exists TimedOut. split; [reflexivity | now constructor].
Qed.


(** Once the selected factory has handed over a runner, the rest of the run
    is one clock reading followed by a polling phase, and the way the phase
    ends decides what the caller gets. *)
Lemma getRunner_polling (fuel : nat) (runnerId : string) (w w1 : W) (runner : Runner) :
  get_reply (factory_of (isRender_in w)) runnerId w = (Resolved runner, w1) ->
  exists (e : PollEnd) (tl : list Event),
    trace (getRunner fuel runnerId w) =
      EvEnv "IS_RENDER" (process_env w "IS_RENDER")
        :: EvGet (factory_of (isRender_in w)) runnerId (Resolved runner)
        :: EvNow (clock w1) :: tl /\
    poll_trace (client runner) (clock w1) (timeoutMs (isRender_in w)) e tl /\
    outcome (getRunner fuel runnerId w) =
      match e with
      | Healthy => Returned runner
      | TimedOut =>
          Threw (NewError (not_started_message runnerId (timeoutMs (isRender_in w))))
      | Unfinished => OutOfFuel
      end.
Proof.
  intros Hget. rewrite getRunner_unfold. cbv zeta. rewrite Hget.
  unfold clock. destruct (Date_now w1) as [t0 w2]. cbn [fst].
  destruct (poll_shape fuel runner t0 (timeoutMs (isRender_in w)) w2) as [e [Ho Htr]].
  destruct (poll fuel runner t0 (timeoutMs (isRender_in w)) false w2) as [[o w3] tr].
  unfold outcome, trace in *. cbn [fst snd] in *. subst o.
  exists e, tr. split; [reflexivity|]. split; [exact Htr|].
  destruct e; reflexivity.
Qed.


Lemma nth_reply_succ (c : Client) (w : W) (k : nat) :
  nth_reply c w (S k) = nth_reply c (retry c w) k.
Proof. unfold nth_reply. rewrite Nat.iter_succ_r. reflexivity. Qed.

(** Polling from [w], if attempts [0 .. n-1] are rejected, attempt [n] is
    accepted and each of these [n+1] loop tests is inside the budget, then
    the loop ends healthy after [n+1] attempts and [n] delays. *)
Lemma poll_nth_attempt (runner : Runner) (t0 budget : Z) :
  forall (n fuel : nat) (w : W),
    (forall k, (k < n)%nat -> resolved (nth_reply (client runner) w k) = false) ->
    resolved (nth_reply (client runner) w n) = true ->
    (forall k, (k <= n)%nat ->
               clock (Nat.iter k (retry (client runner)) w) - t0 < budget) ->
    (n < fuel)%nat ->
    outcome (poll fuel runner t0 budget false w) = Returned true /\
    final (poll fuel runner t0 budget false w) =
      snd (health_query (client runner)
             (snd (Date_now (Nat.iter n (retry (client runner)) w)))) /\
    attempts (trace (poll fuel runner t0 budget false w)) = S n /\
    sleeps (trace (poll fuel runner t0 budget false w)) = n.
Proof.
  induction n as [|n IH]; intros fuel w Hrej Hok Htime Hfuel;
    (destruct fuel as [|fuel']; [lia|]); rewrite poll_unfold;
    pose proof (Htime 0%nat (Nat.le_0_l _)) as Ht0;
    unfold clock in Ht0; cbn [Nat.iter nat_rect] in Ht0;
    destruct (Date_now w) as [t w1] eqn:Hnow; cbn [fst] in Ht0;
    (destruct (Z.ltb_spec (t - t0) budget); [|lia]);
    destruct (health_query (client runner) w1) as [[[]|reason] w2] eqn:Hq.
  - unfold final, nth_reply. cbn [Nat.iter nat_rect]. rewrite Hnow. cbn [snd].
    rewrite Hq. repeat split.
  - unfold nth_reply in Hok. cbn [Nat.iter nat_rect] in Hok.
    rewrite Hnow in Hok. cbn [snd] in Hok. rewrite Hq in Hok. discriminate.
  - specialize (Hrej 0%nat (Nat.lt_0_succ _)).
    unfold nth_reply in Hrej. cbn [Nat.iter nat_rect] in Hrej.
    rewrite Hnow in Hrej. cbn [snd] in Hrej. rewrite Hq in Hrej. discriminate.
  - assert (Hretry : retry (client runner) w = setTimeout 1000 w2).
    { unfold retry. rewrite Hnow. cbn [snd]. rewrite Hq. reflexivity. }
    destruct (IH fuel' (retry (client runner) w)) as [Ho [Hw [Ha Hs]]].
    + intros k Hk. rewrite <- nth_reply_succ. apply Hrej. lia.
    + rewrite <- nth_reply_succ. exact Hok.
    + intros k Hk. rewrite <- Nat.iter_succ_r. apply Htime. lia.
    + lia.
    + rewrite Nat.iter_succ_r. rewrite Hretry in Ho, Hw, Ha, Hs |- *.
      destruct (poll fuel' runner t0 budget false (setTimeout 1000 w2)) as [[o w3] tr].
      unfold outcome, final, trace, attempts, sleeps in Ho, Hw, Ha, Hs |- *.
      cbn [fst snd] in *. cbn. rewrite Ha, Hs. auto.
Qed.

(** Under an ideal clock the loop test number [k] reads the start time
    plus [k] seconds. *)
Lemma ideal_clock_after_retries (I : IdealClock) (c : Client) (w : W) (k : nat) :
  clock (Nat.iter k (retry c) w) = clock w + 1000 * Z.of_nat k.
Proof.
  induction k as [|k IH].
  - cbn. lia.
  - rewrite Nat.iter_succ. unfold retry at 1.
    rewrite (sleep_exact I), (health_instant I), (now_pure I), IH. lia.
Qed.

(** When the selected factory rejects, the call ends there. *)
Lemma getRunner_rejected (fuel : nat) (runnerId : string) (w w1 : W) (reason : Reason) :
  get_reply (factory_of (isRender_in w)) runnerId w = (Rejected reason, w1) ->
  getRunner fuel runnerId w =
    (Threw (Propagated reason), w1,
     [EvEnv "IS_RENDER" (process_env w "IS_RENDER");
      EvGet (factory_of (isRender_in w)) runnerId (Rejected reason)]).
Proof.
  intros Hget. rewrite getRunner_unfold. cbv zeta. rewrite Hget. reflexivity.
Qed.


(** [stop] is visible in a trace whenever a task performs it. *)
Lemma stop_is_observed (runner : Runner) (w : W) :
  filter is_stop (trace (stop runner w)) =
    [EvStop runner (fst (Runner_stop runner w))].
Proof.
  unfold stop, await, trace.
  destruct (Runner_stop runner w) as [[[]|reason] w1]; reflexivity.
Qed.

End Unfolding.

(** The concrete world has an ideal clock. *)
Lemma Sim_ideal_clock : IdealClock (W := Sim.World).
Proof.
  split.
  - intros w. reflexivity.
  - intros c [v t l r [[|k]|]]; reflexivity.
  - intros ms w. reflexivity.
Qed.

Lemma ideal_clock_monotone {W : Type} {P : Platform W} :
  IdealClock -> MonotoneClock.
Proof.
  intros I. split.
  - intros w. rewrite (now_pure I). lia.
  - intros c w. rewrite (health_instant I). lia.
  - intros ms w. rewrite (sleep_exact I). lia.
Qed.

(** ** Runs against the world *)

Section WorldFacts.

Context {W : Type} {P : Platform W}.

(** A loop that finishes has polled the world. *)
Lemma poll_polling (runner : Runner) (t0 budget : Z) :
  forall (fuel : nat) (w : W) (healthy : bool),
    outcome (poll fuel runner t0 budget false w) = Returned healthy ->
    polling (client runner) t0 budget w healthy
      (final (poll fuel runner t0 budget false w))
      (trace (poll fuel runner t0 budget false w)).
Proof.
  induction fuel as [|fuel' IH]; intros w healthy; rewrite poll_unfold;
    destruct (Date_now w) as [t w1] eqn:Hnow;
    destruct (Z.ltb_spec (t - t0) budget) as [Hin|Hout];
    unfold outcome, final, trace; cbn [fst snd]; try discriminate;
    try (intros [= <-]; now apply polling_gives_up).
  destruct (health_query (client runner) w1) as [[[]|reason] w2] eqn:Hq;
    cbn [fst snd].
  - intros [= <-]. now apply polling_healthy with (w1 := w1).
  - specialize (IH (setTimeout 1000 w2) healthy).
    destruct (poll fuel' runner t0 budget false (setTimeout 1000 w2)) as [[o w3] tr].
    unfold outcome, final, trace in IH. cbn [fst snd] in *.
    intros Ho. now apply polling_retries with (w1 := w1) (w2 := w2); auto.
Qed.

(** More fuel does not change a loop that finished. *)
Lemma poll_fuel_mono (runner : Runner) (t0 budget : Z) :
  forall (fuel fuel' : nat) (w : W),
    outcome (poll fuel runner t0 budget false w) <> OutOfFuel ->
    (fuel <= fuel')%nat ->
    poll fuel' runner t0 budget false w = poll fuel runner t0 budget false w.
Proof.
  induction fuel as [|fuel IH]; intros fuel' w Hfin Hle;
    rewrite (poll_unfold fuel'); rewrite poll_unfold in Hfin |- *;
    destruct (Date_now w) as [t w1];
    destruct (t - t0 <? budget); try reflexivity.
  - exfalso. apply Hfin. reflexivity.
  - destruct fuel' as [|fuel']; [lia|].
    destruct (health_query (client runner) w1) as [[[]|reason] w2]; [reflexivity|].
    rewrite (IH fuel' (setTimeout 1000 w2)); [reflexivity | | lia].
    destruct (poll fuel runner t0 budget false (setTimeout 1000 w2)) as [[o w3] tr].
    exact Hfin.
Qed.

Lemma getRunner_fuel_mono (fuel fuel' : nat) (runnerId : string) (w : W) :
  outcome (getRunner fuel runnerId w) <> OutOfFuel ->
  (fuel <= fuel')%nat ->
  getRunner fuel' runnerId w = getRunner fuel runnerId w.
Proof.
  intros Hfin Hle. rewrite (getRunner_unfold fuel'). rewrite getRunner_unfold in Hfin |- *.
  cbv zeta in *.
  destruct (get_reply (factory_of (isRender_in w)) runnerId w) as [[runner|reason] w1];
    [|reflexivity].
  destruct (Date_now w1) as [t0 w2].
  rewrite (poll_fuel_mono runner t0 (timeoutMs (isRender_in w)) fuel fuel' w2);
    [reflexivity | | exact Hle].
  destruct (poll fuel runner t0 (timeoutMs (isRender_in w)) false w2) as [[o w3] tr].
  unfold outcome in *. cbn [fst] in *.
  destruct o as [[|]| |]; try discriminate.
  intros _. apply Hfin. reflexivity.
Qed.

Section Polled.

Variables (c : Client) (t0 budget : Z).

(** The interactions of a polling follow the protocol of [poll_trace]. *)
Lemma polling_poll_trace (w w' : W) (healthy : bool) (tl : list Event) :
  polling c t0 budget w healthy w' tl ->
  poll_trace c t0 budget (if healthy then Healthy else TimedOut) tl.
Proof.
  induction 1; [now constructor | now constructor | now constructor].
Qed.

(** A polling that ends healthy was rejected some [n] times by the endpoint
    of the world and accepted on the next query, each of the [n + 1] loop
    tests being inside the budget; the world left behind is the one that
    accepted query left. *)
Lemma polling_healthy_inv (w w' : W) (tl : list Event) :
  polling c t0 budget w true w' tl ->
  exists n : nat,
    (forall k, (k < n)%nat -> resolved (nth_reply c w k) = false) /\
    health_query c (snd (Date_now (Nat.iter n (retry c) w))) = (Resolved tt, w') /\
    (forall k, (k <= n)%nat -> clock (Nat.iter k (retry c) w) - t0 < budget) /\
    attempts tl = S n /\
    sleeps tl = n.
Proof.
  intros H. remember true as healthy eqn:Hh.
  induction H as [w w1 t Hnow Hout
                 |w w1 w2 t Hnow Hin Hq
                 |w w1 w2 w3 t reason healthy tl Hnow Hin Hq Hrest IH];
    [discriminate | |].
  - exists 0%nat. cbn [Nat.iter nat_rect]. rewrite Hnow. cbn [snd].
    split; [intros k Hk; lia|]. split; [exact Hq|].
    split; [|split; reflexivity].
    intros k Hk. assert (k = 0)%nat as -> by lia. cbn [Nat.iter nat_rect].
    unfold clock. rewrite Hnow. exact Hin.
  - destruct (IH Hh) as [n [Hrej [Hacc [Htime [Ha Hs]]]]].
    assert (Hretry : retry c w = setTimeout 1000 w2).
    { unfold retry. rewrite Hnow. cbn [snd]. rewrite Hq. reflexivity. }
    exists (S n). rewrite Nat.iter_succ_r, Hretry.
    split; [|split; [exact Hacc|split]].
    + intros k Hk. destruct k as [|k].
      * unfold nth_reply. cbn [Nat.iter nat_rect]. rewrite Hnow. cbn [snd].
        rewrite Hq. reflexivity.
      * rewrite nth_reply_succ, Hretry. apply Hrej. lia.
    + intros k Hk. destruct k as [|k].
      * cbn [Nat.iter nat_rect]. unfold clock. rewrite Hnow. exact Hin.
      * rewrite Nat.iter_succ_r, Hretry. apply Htime. lia.
    + unfold attempts, sleeps in *. cbn [filter is_health is_sleep].
      rewrite !length_cons, Ha, Hs. split; reflexivity.
Qed.

End Polled.

(** A call that obtained a runner and finished has read the clock once and
    then polled the world with the budget of its mode; the verdict of the
    polling decides between the handle and the error of the routine. *)
Lemma getRunner_finished (fuel : nat) (runnerId : string) (w w1 : W) (runner : Runner) :
  get_reply (factory_of (isRender_in w)) runnerId w = (Resolved runner, w1) ->
  outcome (getRunner fuel runnerId w) <> OutOfFuel ->
  exists (healthy : bool) (tl : list Event),
    trace (getRunner fuel runnerId w) =
      EvEnv "IS_RENDER" (process_env w "IS_RENDER")
        :: EvGet (factory_of (isRender_in w)) runnerId (Resolved runner)
        :: EvNow (clock w1) :: tl /\
    polling (client runner) (clock w1) (timeoutMs (isRender_in w))
      (snd (Date_now w1)) healthy (final (getRunner fuel runnerId w)) tl /\
    outcome (getRunner fuel runnerId w) =
      if healthy then Returned runner
      else Threw (NewError (not_started_message runnerId (timeoutMs (isRender_in w)))).
Proof.
  intros Hget. rewrite getRunner_unfold. cbv zeta. rewrite Hget.
  unfold clock. destruct (Date_now w1) as [t0 w2]. cbn [fst snd].
  pose proof (poll_polling runner t0 (timeoutMs (isRender_in w)) fuel w2) as Hpoll.
  destruct (poll_shape fuel runner t0 (timeoutMs (isRender_in w)) w2) as [e [He _]].
  destruct (poll fuel runner t0 (timeoutMs (isRender_in w)) false w2) as [[o w3] tr].
  unfold outcome, final, trace in *. cbn [fst snd] in *. intros Hfin.
  destruct e; cbn in He; subst o.
  - exists true, tr. split; [reflexivity|]. split; [now apply Hpoll | reflexivity].
  - exists false, tr. split; [reflexivity|]. split; [now apply Hpoll | reflexivity].
  - exfalso. apply Hfin. reflexivity.
Qed.

End WorldFacts.

(** ** Properties of [getRunner] *)

Section Properties.

Context {W : Type} {P : Platform W}.

(** C1. When [getRunner] returns, the value returned is the very handle the
    selected factory resolved with, and that handle has answered a health
    query before: the endpoint of the world, asked after the factory call
    and after the [n] queries it rejected, accepted the next query of the
    run; that query is the last interaction before the return and leaves the
    world the caller gets. *)
Theorem getRunner_returns_checked_handle
    (fuel : nat) (runnerId : string) (w : W) (runner : Runner) :
  outcome (getRunner fuel runnerId w) = Returned runner ->
  let selected := factory_of (isRender_in w) in
  let polled := snd (Date_now (snd (get_reply selected runnerId w))) in
  fst (get_reply selected runnerId w) = Resolved runner /\
  (exists before : list Event,
     trace (getRunner fuel runnerId w) =
       before ++ [EvHealth (client runner) (Resolved tt)] /\
     In (EvGet selected runnerId (Resolved runner)) before) /\
  exists n : nat,
    health_query (client runner)
      (snd (Date_now (Nat.iter n (retry (client runner)) polled)))
      = (Resolved tt, final (getRunner fuel runnerId w)) /\
    (forall k, (k < n)%nat -> resolved (nth_reply (client runner) polled k) = false) /\
    attempts (trace (getRunner fuel runnerId w)) = S n.
Proof.
  intros Hret. cbv zeta.
  destruct (get_reply (factory_of (isRender_in w)) runnerId w) as [[r|reason] w1] eqn:Hget.
  - assert (Hfin : outcome (getRunner fuel runnerId w) <> OutOfFuel)
      by (rewrite Hret; discriminate).
    destruct (getRunner_finished fuel runnerId w w1 r Hget Hfin)
      as [healthy [tl [Htr [Hpoll Hout]]]].
    rewrite Hout in Hret. destruct healthy; [|discriminate].
    injection Hret as ->. cbn [fst snd].
    split; [reflexivity|].
    destruct (poll_trace_healthy_last _ _ _ _ (polling_poll_trace _ _ _ _ _ _ _ Hpoll))
      as [body Hbody].
    destruct (polling_healthy_inv _ _ _ _ _ _ Hpoll) as [n [Hrej [Hacc [_ [Ha _]]]]].
    split.
    + exists (EvEnv "IS_RENDER" (process_env w "IS_RENDER")
                :: EvGet (factory_of (isRender_in w)) runnerId (Resolved runner)
                :: EvNow (clock w1) :: body).
      split; [rewrite Htr, Hbody; reflexivity | cbn; auto].
    + exists n. split; [exact Hacc|]. split; [exact Hrej|].
      rewrite Htr. exact Ha.
  - rewrite (getRunner_rejected fuel runnerId w w1 reason Hget) in Hret. discriminate.
Qed.

(** C3. Every call asks exactly one factory, exactly once: [RenderRunner]
    when [IS_RENDER] is ['true'], [LocalRunner] otherwise.  The other factory
    does not appear in the trace. *)
Theorem getRunner_asks_one_factory (fuel : nat) (runnerId : string) (w : W) :
  let selected :=
    if strict_eq (process_env w "IS_RENDER") "true" then RenderRunner else LocalRunner in
  filter is_get (trace (getRunner fuel runnerId w)) =
    [EvGet selected runnerId (fst (get_reply selected runnerId w))].
Proof.
  cbv zeta. change (if strict_eq (process_env w "IS_RENDER") "true"
                    then RenderRunner else LocalRunner)
    with (factory_of (isRender_in w)).
  destruct (get_reply (factory_of (isRender_in w)) runnerId w) as [[r|reason] w1] eqn:Hget.
  - destruct (getRunner_polling fuel runnerId w w1 r Hget) as [e [tl [Htr [Hpoll _]]]].
    rewrite Htr. cbn.
    destruct (poll_trace_only_polls _ _ _ _ _ Hpoll) as [-> _]. reflexivity.
  - rewrite (getRunner_rejected fuel runnerId w w1 reason Hget). reflexivity.
Qed.

(** C8. When the selected factory rejects, the caller receives that very
    rejection; the run consists of the flag lookup and the factory call only:
    no health query, no delay, and no error of the routine's own. *)
Theorem getRunner_factory_failure_propagates
    (fuel : nat) (runnerId : string) (w w1 : W) (reason : Reason) :
  get_reply (factory_of (isRender_in w)) runnerId w = (Rejected reason, w1) ->
  outcome (getRunner fuel runnerId w) = Threw (Propagated reason) /\
  final (getRunner fuel runnerId w) = w1 /\
  trace (getRunner fuel runnerId w) =
    [EvEnv "IS_RENDER" (process_env w "IS_RENDER");
     EvGet (factory_of (isRender_in w)) runnerId (Rejected reason)] /\
  attempts (trace (getRunner fuel runnerId w)) = 0%nat /\
  sleeps (trace (getRunner fuel runnerId w)) = 0%nat /\
  (forall message, outcome (getRunner fuel runnerId w) <> Threw (NewError message)).
Proof.
  intros Hget. rewrite (getRunner_rejected fuel runnerId w w1 reason Hget).
  repeat split. intros message. discriminate.
Qed.

(** C9. No run of [getRunner] stops a runner, whether it returns, throws or
    is still polling. *)
Theorem getRunner_never_stops (fuel : nat) (runnerId : string) (w : W) :
  filter is_stop (trace (getRunner fuel runnerId w)) = [].
Proof.
  destruct (get_reply (factory_of (isRender_in w)) runnerId w) as [[r|reason] w1] eqn:Hget.
  - destruct (getRunner_polling fuel runnerId w w1 r Hget) as [e [tl [Htr [Hpoll _]]]].
    rewrite Htr. cbn.
    destruct (poll_trace_only_polls _ _ _ _ _ Hpoll) as [_ [_ ->]]. reflexivity.
  - rewrite (getRunner_rejected fuel runnerId w w1 reason Hget). reflexivity.
Qed.

(** C2. A call that obtained a runner and finished has polled the world
    with a budget of 90000 ms when [IS_RENDER] is ['true'] and of 10000 ms
    otherwise, counted from the clock reading taken right after the factory
    call: it queried the endpoint only after a reading inside that budget,
    gave up only on a reading at or past it (and then threw the error that
    names the same budget), and after each rejected query set a timer of
    1000 ms in the world before the next loop test.  Every delay is of
    1000 ms and there is exactly one after each rejected query, hence
    between any two consecutive queries. *)
Theorem getRunner_budget_and_pace
    (fuel : nat) (runnerId : string) (w w1 : W) (runner : Runner) :
  get_reply (factory_of (isRender_in w)) runnerId w = (Resolved runner, w1) ->
  outcome (getRunner fuel runnerId w) <> OutOfFuel ->
  let budget := if strict_eq (process_env w "IS_RENDER") "true" then 90000 else 10000 in
  exists (healthy : bool) (tl : list Event),
    trace (getRunner fuel runnerId w) =
      EvEnv "IS_RENDER" (process_env w "IS_RENDER")
        :: EvGet (factory_of (isRender_in w)) runnerId (Resolved runner)
        :: EvNow (clock w1) :: tl /\
    polling (client runner) (clock w1) budget (snd (Date_now w1)) healthy
      (final (getRunner fuel runnerId w)) tl /\
    outcome (getRunner fuel runnerId w) =
      (if healthy then Returned runner
       else Threw (NewError (not_started_message runnerId budget))) /\
    (forall ms, In (EvSleep ms) (trace (getRunner fuel runnerId w)) -> ms = 1000) /\
    attempts tl = (sleeps tl + if healthy then 1 else 0)%nat.
Proof.
  intros Hget Hfin. cbv zeta.
  destruct (getRunner_finished fuel runnerId w w1 runner Hget Hfin)
    as [healthy [tl [Htr [Hpoll Hout]]]].
  pose proof (polling_poll_trace _ _ _ _ _ _ _ Hpoll) as Hshape.
  exists healthy, tl. split; [exact Htr|]. split; [exact Hpoll|].
  split; [exact Hout|]. split.
  - intros ms Hin. rewrite Htr in Hin.
    repeat (destruct Hin as [Hin|Hin]; [discriminate|]).
    exact (poll_trace_sleep_1000 _ _ _ _ _ Hshape ms Hin).
  - rewrite (proj1 (poll_trace_counts _ _ _ _ _ Hshape)).
    destruct healthy; reflexivity.
Qed.


(** C5. Once a runner has been obtained, a rejected health query only
    means "not yet healthy".  It is followed by the 1000 ms delay and by
    another loop test (a new clock reading), and its error is never what the
    caller gets.  If the call throws at all it throws the routine's own
    error, right after a clock reading that is at least the whole budget past
    the start.  And the handle is returned only because the endpoint of the
    world accepted the last query of the run, never on the strength of a
    rejected one. *)
Theorem getRunner_swallows_health_errors
    (fuel : nat) (runnerId : string) (w w1 : W) (runner : Runner) :
  get_reply (factory_of (isRender_in w)) runnerId w = (Resolved runner, w1) ->
  (forall i c reason,
      nth_error (trace (getRunner fuel runnerId w)) i = Some (EvHealth c (Rejected reason)) ->
      nth_error (trace (getRunner fuel runnerId w)) (S i) = Some (EvSleep 1000) /\
      (exists t, nth_error (trace (getRunner fuel runnerId w)) (S (S i)) = Some (EvNow t)) /\
      outcome (getRunner fuel runnerId w) <> Threw (Propagated reason)) /\
  (forall x,
      outcome (getRunner fuel runnerId w) = Threw x ->
      x = NewError (not_started_message runnerId (timeoutMs (isRender_in w))) /\
      exists body t,
        trace (getRunner fuel runnerId w) = body ++ [EvNow t] /\
        timeoutMs (isRender_in w) <= t - clock w1) /\
  (forall r,
      outcome (getRunner fuel runnerId w) = Returned r ->
      r = runner /\
      (exists body,
         trace (getRunner fuel runnerId w)
           = body ++ [EvHealth (client runner) (Resolved tt)]) /\
      exists n : nat,
        health_query (client runner)
          (snd (Date_now (Nat.iter n (retry (client runner)) (snd (Date_now w1)))))
          = (Resolved tt, final (getRunner fuel runnerId w)) /\
        attempts (trace (getRunner fuel runnerId w)) = S n).
Proof.
  intros Hget.
  destruct (getRunner_polling fuel runnerId w w1 runner Hget) as [e [tl [Htr [Hpoll Hout]]]].
  split; [|split].
  - rewrite Htr, Hout. intros i c reason Hi. split; [|split].
    + destruct i as [|[|[|i]]]; cbn in Hi; try discriminate.
      cbn. exact (poll_trace_rejection_retried _ _ _ _ _ Hpoll i c reason Hi).
    + destruct i as [|[|[|i]]]; cbn in Hi; try discriminate.
      cbn. exact (poll_trace_loop_goes_on _ _ _ _ _ Hpoll i c reason Hi).
    + destruct e; discriminate.
  - rewrite Htr, Hout. intros x Hx. destruct e; try discriminate.
    injection Hx as <-. split; [reflexivity|].
    destruct (poll_trace_timed_out_last _ _ _ _ Hpoll) as [body [t [-> Hlate]]].
    eexists. exists t. split; [|exact Hlate].
    rewrite !app_comm_cons. reflexivity.
  - intros r Hr.
    assert (Hfin : outcome (getRunner fuel runnerId w) <> OutOfFuel)
      by (rewrite Hr; discriminate).
    destruct (getRunner_finished fuel runnerId w w1 runner Hget Hfin)
      as [healthy [tl' [Htr' [Hpoll' Hout']]]].
    rewrite Hout' in Hr. destruct healthy; [|discriminate].
    injection Hr as <-. split; [reflexivity|].
    destruct (poll_trace_healthy_last _ _ _ _ (polling_poll_trace _ _ _ _ _ _ _ Hpoll'))
      as [body Hbody].
    destruct (polling_healthy_inv _ _ _ _ _ _ Hpoll') as [n [_ [Hacc [_ [Ha _]]]]].
    split.
    + eexists. rewrite Htr', Hbody, !app_comm_cons. reflexivity.
    + exists n. split; [exact Hacc|]. rewrite Htr'. exact Ha.
Qed.

(** C6. If the health query issued by the first round of the loop is
    accepted, the call returns the handle after that single attempt and
    without any delay. *)
Theorem getRunner_first_attempt_healthy
    (fuel : nat) (runnerId : string) (w w1 w2 w3 w4 : W) (runner : Runner) (t0 t1 : Z) :
  get_reply (factory_of (isRender_in w)) runnerId w = (Resolved runner, w1) ->
  Date_now w1 = (t0, w2) ->
  Date_now w2 = (t1, w3) ->
  t1 - t0 < timeoutMs (isRender_in w) ->
  health_query (client runner) w3 = (Resolved tt, w4) ->
  (1 <= fuel)%nat ->
  getRunner fuel runnerId w =
    (Returned runner, w4,
     [EvEnv "IS_RENDER" (process_env w "IS_RENDER");
      EvGet (factory_of (isRender_in w)) runnerId (Resolved runner);
      EvNow t0; EvNow t1; EvHealth (client runner) (Resolved tt)]) /\
  attempts (trace (getRunner fuel runnerId w)) = 1%nat /\
  sleeps (trace (getRunner fuel runnerId w)) = 0%nat.
Proof.
  intros Hget Hstart Htest Hin Hq Hfuel.
  assert (Hrun : getRunner fuel runnerId w =
    (Returned runner, w4,
     [EvEnv "IS_RENDER" (process_env w "IS_RENDER");
      EvGet (factory_of (isRender_in w)) runnerId (Resolved runner);
      EvNow t0; EvNow t1; EvHealth (client runner) (Resolved tt)])).
  { rewrite getRunner_unfold. cbv zeta. rewrite Hget, Hstart.
    destruct fuel as [|fuel']; [lia|].
    rewrite poll_unfold, Htest.
    destruct (Z.ltb_spec (t1 - t0) (timeoutMs (isRender_in w))); [|lia].
    rewrite Hq. reflexivity. }
  rewrite Hrun. repeat split.
Qed.

(** C7 (amended). If the endpoint rejects attempts 1 .. N-1 and accepts
    attempt N, and each of the N loop tests up to that attempt reads a clock
    still inside the budget, the call returns the handle after exactly N
    attempts and N - 1 delays of 1000 ms each, whatever the time the queries
    themselves take. *)
Theorem getRunner_nth_attempt_healthy
    (fuel N : nat) (runnerId : string) (w w1 : W) (runner : Runner) :
  get_reply (factory_of (isRender_in w)) runnerId w = (Resolved runner, w1) ->
  (1 <= N)%nat ->
  (forall k, (k < N - 1)%nat ->
             resolved (nth_reply (client runner) (snd (Date_now w1)) k) = false) ->
  resolved (nth_reply (client runner) (snd (Date_now w1)) (N - 1)) = true ->
  (forall k, (k < N)%nat ->
             clock (Nat.iter k (retry (client runner)) (snd (Date_now w1))) - clock w1
               < timeoutMs (isRender_in w)) ->
  (N <= fuel)%nat ->
  outcome (getRunner fuel runnerId w) = Returned runner /\
  final (getRunner fuel runnerId w) =
    snd (health_query (client runner)
           (snd (Date_now (Nat.iter (N - 1) (retry (client runner))
                             (snd (Date_now w1)))))) /\
  attempts (trace (getRunner fuel runnerId w)) = N /\
  sleeps (trace (getRunner fuel runnerId w)) = (N - 1)%nat /\
  slept_ms (trace (getRunner fuel runnerId w)) = 1000 * (Z.of_nat N - 1).
Proof.
  intros Hget HN Hrej Hok Htime Hfuel.
  assert (Htime' : forall k, (k <= N - 1)%nat ->
            clock (Nat.iter k (retry (client runner)) (snd (Date_now w1))) - clock w1
              < timeoutMs (isRender_in w))
    by (intros k Hk; apply Htime; lia).
  assert (Hlt : (N - 1 < fuel)%nat) by lia.
  pose proof (poll_nth_attempt runner (clock w1) (timeoutMs (isRender_in w))
                (N - 1) fuel (snd (Date_now w1)) Hrej Hok Htime' Hlt)
    as [Ho [Hw [Ha Hs]]].
  pose proof (poll_shape fuel runner (clock w1) (timeoutMs (isRender_in w))
                (snd (Date_now w1))) as [e [_ Hshape]].
  apply poll_trace_counts in Hshape. destruct Hshape as [_ Hms].
  rewrite getRunner_unfold. cbv zeta. rewrite Hget.
  unfold clock in Ho, Hw, Ha, Hs, Hms.
  destruct (Date_now w1) as [t0 w2]. cbn [fst snd] in *.
  destruct (poll fuel runner t0 (timeoutMs (isRender_in w)) false w2)
    as [[o w3] tr].
  unfold outcome, final, trace, attempts, sleeps in *. cbn [fst snd] in *.
  subst o. cbn [filter is_health is_sleep slept_ms].
  rewrite Hs in Hms. repeat split; try assumption; lia.
Qed.


End Properties.

(** ** Runs in the concrete world *)

(** A local runner that rejects three health queries is returned after four
    attempts and three seconds. *)
Example local_runner_boots_after_three_rejections :
  getRunner 20 "r1" Sim.local3 =
    (Returned Sim.handle7,
     Sim.mkWorld None 1700000003000 (Resolved Sim.handle7)
       (Rejected "render: unreachable"%string) (Some 0%nat),
     [EvEnv "IS_RENDER" None; EvGet LocalRunner "r1" (Resolved Sim.handle7);
      EvNow 1700000000000;
      EvNow 1700000000000; EvHealth 7%N (Rejected "ECONNREFUSED"%string); EvSleep 1000;
      EvNow 1700000001000; EvHealth 7%N (Rejected "ECONNREFUSED"%string); EvSleep 1000;
      EvNow 1700000002000; EvHealth 7%N (Rejected "ECONNREFUSED"%string); EvSleep 1000;
      EvNow 1700000003000; EvHealth 7%N (Resolved tt)]).
Proof. reflexivity. Qed.

(** A hosted runner that never answers costs ninety delays. *)
Example render_runner_never_healthy :
  outcome (getRunner 90 "r1" Sim.render_down) =
    Threw (NewError "Runner 'r1' hasn't started after 90000ms,"%string) /\
  sleeps (trace (getRunner 90 "r1" Sim.render_down)) = 90%nat /\
  Sim.time (final (getRunner 90 "r1" Sim.render_down)) = 1700000000000 + 90000.
Proof. vm_compute. repeat split. Qed.

(** A caller that stops the runner it was given leaves a [stop] in its own
    trace. *)
Example caller_stops_runner :
  filter is_stop (trace (Sim.resolve_then_stop 20 "r1" Sim.local3)) =
    [EvStop Sim.handle7 (Resolved tt)].
Proof. reflexivity. Qed.

(** The budget is tested before an attempt is made, not when its answer
    arrives: a query issued at once and answered after 15 seconds is accepted
    although the local budget is 10 seconds. *)
Example late_answer_is_accepted :
  getRunner 1 "r1" (SlowSim.mkWorld 0 15000) =
    (Returned (mkRunner 7%N), SlowSim.mkWorld 15000 15000,
     [EvEnv "IS_RENDER" None; EvGet LocalRunner "r1" (Resolved (mkRunner 7%N));
      EvNow 0; EvNow 0; EvHealth 7%N (Resolved tt)]).
Proof. reflexivity. Qed.



Lemma getRunner_returns_checked_handle_witness :
  let w := Sim.local3 in
  let c := client Sim.handle7 in
  let polled := snd (Date_now (snd (get_reply (factory_of (isRender_in w)) "r1" w))) in
  outcome (getRunner 20 "r1" w) = Returned Sim.handle7 /\
  (fst (get_reply (factory_of (isRender_in w)) "r1" w) = Resolved Sim.handle7 /\
   (exists before : list Event,
      trace (getRunner 20 "r1" w) = before ++ [EvHealth c (Resolved tt)] /\
      In (EvGet (factory_of (isRender_in w)) "r1" (Resolved Sim.handle7)) before) /\
   exists n : nat,
     health_query c (snd (Date_now (Nat.iter n (retry c) polled)))
       = (Resolved tt, final (getRunner 20 "r1" w)) /\
     (forall k, (k < n)%nat -> resolved (nth_reply c polled k) = false) /\
     attempts (trace (getRunner 20 "r1" w)) = S n).
Proof.
  intros w c polled. split; [reflexivity|].
  exact (getRunner_returns_checked_handle 20 "r1" w Sim.handle7 eq_refl).
Defined.

Lemma getRunner_budget_and_pace_witness :
  let w := Sim.render_down in
  let budget := if strict_eq (process_env w "IS_RENDER") "true" then 90000 else 10000 in
  get_reply (factory_of (isRender_in w)) "r1" w = (Resolved Sim.handle9, w) /\
  outcome (getRunner 90 "r1" w) <> OutOfFuel /\
  exists (healthy : bool) (tl : list Event),
    trace (getRunner 90 "r1" w) =
      EvEnv "IS_RENDER" (process_env w "IS_RENDER")
        :: EvGet (factory_of (isRender_in w)) "r1" (Resolved Sim.handle9)
        :: EvNow (clock w) :: tl /\
    polling (client Sim.handle9) (clock w) budget (snd (Date_now w)) healthy
      (final (getRunner 90 "r1" w)) tl /\
    outcome (getRunner 90 "r1" w) =
      (if healthy then Returned Sim.handle9
       else Threw (NewError (not_started_message "r1" budget))) /\
    (forall ms, In (EvSleep ms) (trace (getRunner 90 "r1" w)) -> ms = 1000) /\
    attempts tl = (sleeps tl + if healthy then 1 else 0)%nat.
Proof.
  intros w budget.
  assert (Hfin : outcome (getRunner 90 "r1" w) <> OutOfFuel)
    by (vm_compute; discriminate).
  split; [reflexivity|]. split; [exact Hfin|].
  exact (getRunner_budget_and_pace 90 "r1" w w Sim.handle9 eq_refl Hfin).
Defined.




Lemma getRunner_swallows_health_errors_witness :
  let w := Sim.local_down in
  let c := client Sim.handle7 in
  get_reply (factory_of (isRender_in w)) "r1" w = (Resolved Sim.handle7, w) /\
  (forall i c' reason,
      nth_error (trace (getRunner 10 "r1" w)) i = Some (EvHealth c' (Rejected reason)) ->
      nth_error (trace (getRunner 10 "r1" w)) (S i) = Some (EvSleep 1000) /\
      (exists t, nth_error (trace (getRunner 10 "r1" w)) (S (S i)) = Some (EvNow t)) /\
      outcome (getRunner 10 "r1" w) <> Threw (Propagated reason)) /\
  (forall x,
      outcome (getRunner 10 "r1" w) = Threw x ->
      x = NewError (not_started_message "r1" (timeoutMs (isRender_in w))) /\
      exists body t,
        trace (getRunner 10 "r1" w) = body ++ [EvNow t] /\
        timeoutMs (isRender_in w) <= t - clock w) /\
  (forall r,
      outcome (getRunner 10 "r1" w) = Returned r ->
      r = Sim.handle7 /\
      (exists body, trace (getRunner 10 "r1" w) = body ++ [EvHealth c (Resolved tt)]) /\
      exists n : nat,
        health_query c (snd (Date_now (Nat.iter n (retry c) (snd (Date_now w)))))
          = (Resolved tt, final (getRunner 10 "r1" w)) /\
        attempts (trace (getRunner 10 "r1" w)) = S n).
Proof.
  intros w c. split; [reflexivity|].
  exact (getRunner_swallows_health_errors 10 "r1" w w Sim.handle7 eq_refl).
Defined.

Lemma getRunner_first_attempt_healthy_witness :
  let w := Sim.local_ready in
  get_reply (factory_of (isRender_in w)) "r1" w = (Resolved Sim.handle7, w) /\
  Date_now w = (1700000000000, w) /\
  1700000000000 - 1700000000000 < timeoutMs (isRender_in w) /\
  health_query (client Sim.handle7) w = (Resolved tt, w) /\
  (1 <= 1)%nat /\
  (getRunner 1 "r1" w =
     (Returned Sim.handle7, w,
      [EvEnv "IS_RENDER" (process_env w "IS_RENDER");
       EvGet (factory_of (isRender_in w)) "r1" (Resolved Sim.handle7);
       EvNow 1700000000000; EvNow 1700000000000;
       EvHealth (client Sim.handle7) (Resolved tt)]) /\
   attempts (trace (getRunner 1 "r1" w)) = 1%nat /\
   sleeps (trace (getRunner 1 "r1" w)) = 0%nat).
Proof.
  intros w.
  split; [reflexivity|]. split; [reflexivity|]. split; [reflexivity|].
  split; [reflexivity|]. split; [apply Nat.le_refl|].
  apply (getRunner_first_attempt_healthy 1 "r1" w w w w w Sim.handle7
           1700000000000 1700000000000).
  - reflexivity.
  - reflexivity.
  - reflexivity.
  - reflexivity.
  - reflexivity.
  - apply Nat.le_refl.
Defined.

Lemma getRunner_nth_attempt_healthy_witness :
  let w := LagSim.brisk in
  let runner := LagSim.handle in
  let c := client runner in
  get_reply (factory_of (isRender_in w)) "r1" w = (Resolved runner, w) /\
  (1 <= 4)%nat /\
  (forall k, (k < 4 - 1)%nat ->
             resolved (nth_reply c (snd (Date_now w)) k) = false) /\
  resolved (nth_reply c (snd (Date_now w)) (4 - 1)) = true /\
  (forall k, (k < 4)%nat ->
             clock (Nat.iter k (retry c) (snd (Date_now w))) - clock w
               < timeoutMs (isRender_in w)) /\
  (4 <= 4)%nat /\
  (outcome (getRunner 4 "r1" w) = Returned runner /\
   final (getRunner 4 "r1" w) =
     snd (health_query c
            (snd (Date_now (Nat.iter (4 - 1) (retry c) (snd (Date_now w)))))) /\
   attempts (trace (getRunner 4 "r1" w)) = 4%nat /\
   sleeps (trace (getRunner 4 "r1" w)) = (4 - 1)%nat /\
   slept_ms (trace (getRunner 4 "r1" w)) = 1000 * (Z.of_nat 4 - 1)).
Proof.
  intros w runner c.
  assert (Hrej : forall k, (k < 4 - 1)%nat ->
            resolved (nth_reply c (snd (Date_now w)) k) = false).
  { intros k Hk. destruct k as [|[|[|k]]]; [reflexivity|reflexivity|reflexivity|].
    cbn in Hk. lia. }
  assert (Htime : forall k, (k < 4)%nat ->
            clock (Nat.iter k (retry c) (snd (Date_now w))) - clock w
              < timeoutMs (isRender_in w)).
  { intros k Hk.
    destruct k as [|[|[|[|k]]]]; [reflexivity|reflexivity|reflexivity|reflexivity|].
    lia. }
  split; [reflexivity|]. split; [lia|]. split; [exact Hrej|].
  split; [reflexivity|]. split; [exact Htime|]. split; [lia|].
  apply (getRunner_nth_attempt_healthy 4 4 "r1" w w runner).
  - reflexivity.
  - lia.
  - exact Hrej.
  - reflexivity.
  - exact Htime.
  - lia.
Defined.

(** C7, the claim as worded, fails.  In a local deployment whose runner
    takes 3 seconds to answer a health query, rejects three queries and
    accepts the fourth, the health query first succeeds on attempt 4 and
    4 * 1000 ms is below the budget of 10000 ms; yet the fourth attempt is
    never made: after three rejected queries 12 seconds have passed, and for
    any fuel the call throws the not-started error instead of returning the
    handle. *)
Lemma getRunner_slow_queries_counterexample :
  get_reply (factory_of (isRender_in LagSim.sluggish)) "r1" LagSim.sluggish
    = (Resolved LagSim.handle, LagSim.sluggish) /\
  (forall k, (k < 4 - 1)%nat ->
     resolved (nth_reply (client LagSim.handle)
                 (snd (Date_now LagSim.sluggish)) k) = false) /\
  resolved (nth_reply (client LagSim.handle)
              (snd (Date_now LagSim.sluggish)) (4 - 1)) = true /\
  Z.of_nat 4 * 1000 < timeoutMs (isRender_in LagSim.sluggish) /\
  (forall fuel, (4 <= fuel)%nat ->
     outcome (getRunner fuel "r1" LagSim.sluggish) =
       Threw (NewError "Runner 'r1' hasn't started after 10000ms,") /\
     outcome (getRunner fuel "r1" LagSim.sluggish) <> Returned LagSim.handle /\
     attempts (trace (getRunner fuel "r1" LagSim.sluggish)) = 3%nat).
Proof.
  set (w := LagSim.sluggish).
  assert (Hrun : forall fuel, (4 <= fuel)%nat ->
            getRunner fuel "r1" w = getRunner 4 "r1" w).
  { intros fuel Hfuel. apply getRunner_fuel_mono; [|exact Hfuel].
    vm_compute. discriminate. }
  split; [reflexivity|]. split; [|split; [reflexivity|split; [reflexivity|]]].
  - intros k Hk. destruct k as [|[|[|k]]]; [reflexivity|reflexivity|reflexivity|].
    cbn in Hk. lia.
  - intros fuel Hfuel. rewrite (Hrun fuel Hfuel).
    split; [reflexivity|]. split; [discriminate | reflexivity].
Qed.

Lemma getRunner_factory_failure_propagates_witness :
  let w := Sim.render_refused in
  let reason := "render: quota exceeded"%string in
  get_reply (factory_of (isRender_in w)) "r1" w = (Rejected reason, w) /\
  (outcome (getRunner 5 "r1" w) = Threw (Propagated reason) /\
   final (getRunner 5 "r1" w) = w /\
   trace (getRunner 5 "r1" w) =
     [EvEnv "IS_RENDER" (process_env w "IS_RENDER");
      EvGet (factory_of (isRender_in w)) "r1" (Rejected reason)] /\
   attempts (trace (getRunner 5 "r1" w)) = 0%nat /\
   sleeps (trace (getRunner 5 "r1" w)) = 0%nat /\
   (forall message, outcome (getRunner 5 "r1" w) <> Threw (NewError message))).
Proof.
  intros w reason. split; [reflexivity|].
  apply (getRunner_factory_failure_propagates 5 "r1" w w reason).
  reflexivity.
Defined.

(** ** Further properties of [getRunner] *)

Section Polling.

Context {W : Type} {P : Platform W}.

(** With a monotone clock, an attempt is only made while a full second of
    budget per earlier attempt is still left. *)
Lemma poll_attempts_bound (M : MonotoneClock) (runner : Runner) (t0 budget : Z) :
  forall (fuel : nat) (w : W),
    attempts (trace (poll fuel runner t0 budget false w)) = 0%nat \/
    1000 * (Z.of_nat (attempts (trace (poll fuel runner t0 budget false w))) - 1)
      < budget - (clock w - t0).
Proof.
  induction fuel as [|fuel' IH]; intros w; rewrite poll_unfold;
    pose proof (now_mono M w) as Hnow; unfold clock in Hnow |- *;
    destruct (Date_now w) as [t w1]; cbn [fst snd] in *;
    destruct (Z.ltb_spec (t - t0) budget) as [Hin|Hout];
    try (left; reflexivity).
  pose proof (health_mono M (client runner) w1) as Hq. unfold clock in Hq.
  destruct (health_query (client runner) w1) as [[[]|reason] w2]; cbn [fst snd] in *.
  - right. cbn. lia.
  - pose proof (sleep_least M 1000 w2) as Hs. unfold clock in Hs.
    specialize (IH (setTimeout 1000 w2)). unfold clock in IH.
    destruct (poll fuel' runner t0 budget false (setTimeout 1000 w2)) as [[o w3] tr].
    unfold trace, attempts in *. cbn [fst snd] in *.
    cbn [filter is_health]. rewrite length_cons, Nat2Z.inj_succ. right.
    destruct IH as [IH|IH]; [rewrite IH; cbn; lia | lia].
Qed.


(** Under an ideal clock whose reading is a whole number of seconds short
    of the budget, polling never ends later than the budget. *)
Lemma poll_duration_ideal (I : IdealClock) (runner : Runner) (t0 budget : Z) :
  forall (k fuel : nat) (w : W),
    clock w - t0 = budget - 1000 * Z.of_nat k ->
    clock w <= clock (final (poll fuel runner t0 budget false w)) /\
    clock (final (poll fuel runner t0 budget false w)) - t0 <= budget.
Proof.
  induction k as [|k IH]; intros fuel w Hclock; rewrite poll_unfold;
    pose proof (now_pure I w) as Hpure; unfold clock in Hclock |- *;
    destruct (Date_now w) as [t w1] eqn:Hnow; cbn [fst snd] in *; subst w1;
    destruct (Z.ltb_spec (t - t0) budget) as [Hin|Hout]; try lia;
    try (unfold final; cbn [fst snd]; rewrite Hnow; cbn [fst]; lia).
  destruct fuel as [|fuel'];
    [unfold final; cbn [fst snd]; rewrite Hnow; cbn [fst]; lia|].
  pose proof (health_instant I (client runner) w) as Hq. unfold clock in Hq.
  rewrite Hnow in Hq.
  destruct (health_query (client runner) w) as [[[]|reason] w2]; cbn [fst snd] in *.
  - unfold final. cbn [fst snd]. lia.
  - pose proof (sleep_exact I 1000 w2) as Hs. unfold clock in Hs.
    specialize (IH fuel' (setTimeout 1000 w2)). unfold clock in IH.
    destruct (poll fuel' runner t0 budget false (setTimeout 1000 w2)) as [[o w3] tr].
    unfold final in *. cbn [fst snd] in *.
    destruct IH as [Hlo Hhi]; lia.
Qed.

(** X1. With a clock that does not run backwards and timers that fire no
    earlier than asked, one call makes at most 10 health queries in local
    mode and at most 90 in hosted mode, and never more delays than queries. *)
Theorem getRunner_attempts_bounded
    (M : MonotoneClock) (fuel : nat) (runnerId : string) (w : W) :
  (attempts (trace (getRunner fuel runnerId w)) <= if isRender_in w then 90 else 10)%nat /\
  (sleeps (trace (getRunner fuel runnerId w)) <= attempts (trace (getRunner fuel runnerId w)))%nat.
Proof.
  rewrite getRunner_unfold. cbv zeta.
  destruct (get_reply (factory_of (isRender_in w)) runnerId w) as [[runner|reason] w1].
  - pose proof (now_mono M w1) as Hnow. unfold clock at 1 in Hnow.
    destruct (Date_now w1) as [t0 w2]. cbn [fst snd] in Hnow.
    pose proof (poll_attempts_bound M runner t0 (timeoutMs (isRender_in w)) fuel w2) as Hb.
    destruct (poll_shape fuel runner t0 (timeoutMs (isRender_in w)) w2) as [e [_ Hshape]].
    apply poll_trace_counts in Hshape. destruct Hshape as [Hcount _].
    destruct (poll fuel runner t0 (timeoutMs (isRender_in w)) false w2) as [[o w3] tr].
    unfold trace, attempts, sleeps in *. cbn [fst snd] in *.
    cbn [filter is_health is_sleep]. split; [|lia].
    unfold timeoutMs in Hb. destruct (isRender_in w); lia.
  - cbn. destruct (isRender_in w); lia.
Qed.


(** X3. Under an ideal clock no call lasts longer than its budget, whatever
    the runner answers: the clock at the end of the call is at most 10000 ms
    (local) or 90000 ms (hosted) past the reading taken after the factory
    call. *)
Theorem getRunner_duration_bounded
    (I : IdealClock) (fuel : nat) (runnerId : string) (w w1 : W) (runner : Runner) :
  get_reply (factory_of (isRender_in w)) runnerId w = (Resolved runner, w1) ->
  0 <= clock (final (getRunner fuel runnerId w)) - clock w1
    <= (if isRender_in w then 90000 else 10000).
Proof.
  intros Hget.
  assert (Hnow : Date_now w1 = (clock w1, w1)).
  { pose proof (now_pure I w1) as Hpure. unfold clock.
    destruct (Date_now w1) as [t w2]. cbn in *. congruence. }
  rewrite getRunner_unfold. cbv zeta. rewrite Hget, Hnow.
  pose proof (poll_duration_ideal I runner (clock w1) (timeoutMs (isRender_in w))
                (Z.to_nat (timeoutMs (isRender_in w) / 1000)) fuel w1) as Hd.
  destruct (poll fuel runner (clock w1) (timeoutMs (isRender_in w)) false w1)
    as [[o w3] tr].
  unfold final in *. cbn [fst snd] in *.
  destruct Hd as [Hlo Hhi].
  - unfold timeoutMs. destruct (isRender_in w);
      [change (Z.to_nat (90000 / 1000)) with 90%nat
      |change (Z.to_nat (10000 / 1000)) with 10%nat]; lia.
  - unfold timeoutMs in Hhi. destruct (isRender_in w); lia.
Qed.

(** X4. If the clock moves by the whole budget or more between the reading
    that starts the wait and the first loop test, the runner is given up
    without a single health query: the call throws its own error, for any
    fuel, right after those two readings. *)
Theorem getRunner_budget_spent_before_first_attempt
    (fuel : nat) (runnerId : string) (w w1 w2 w3 : W) (runner : Runner) (t0 t1 : Z) :
  get_reply (factory_of (isRender_in w)) runnerId w = (Resolved runner, w1) ->
  Date_now w1 = (t0, w2) ->
  Date_now w2 = (t1, w3) ->
  timeoutMs (isRender_in w) <= t1 - t0 ->
  getRunner fuel runnerId w =
    (Threw (NewError (not_started_message runnerId (timeoutMs (isRender_in w)))), w3,
     [EvEnv "IS_RENDER" (process_env w "IS_RENDER");
      EvGet (factory_of (isRender_in w)) runnerId (Resolved runner);
      EvNow t0; EvNow t1]) /\
  attempts (trace (getRunner fuel runnerId w)) = 0%nat.
Proof.
  intros Hget Hstart Htest Hout.
  assert (Hrun : getRunner fuel runnerId w =
    (Threw (NewError (not_started_message runnerId (timeoutMs (isRender_in w)))), w3,
     [EvEnv "IS_RENDER" (process_env w "IS_RENDER");
      EvGet (factory_of (isRender_in w)) runnerId (Resolved runner);
      EvNow t0; EvNow t1])).
  { rewrite getRunner_unfold. cbv zeta. rewrite Hget, Hstart.
    rewrite poll_unfold, Htest.
    destruct (Z.ltb_spec (t1 - t0) (timeoutMs (isRender_in w))); [lia|].
    reflexivity. }
  rewrite Hrun. split; reflexivity.
Qed.

End Polling.

Lemma Sim_monotone_clock : MonotoneClock (W := Sim.World).
Proof. exact (ideal_clock_monotone Sim_ideal_clock). Qed.

Lemma getRunner_attempts_bounded_witness :
  MonotoneClock (W := Sim.World) /\
  (attempts (trace (getRunner 200 "r1" Sim.local_down))
     <= if isRender_in Sim.local_down then 90 else 10)%nat /\
  (sleeps (trace (getRunner 200 "r1" Sim.local_down))
     <= attempts (trace (getRunner 200 "r1" Sim.local_down)))%nat.
Proof.
  split; [exact Sim_monotone_clock|].
  apply (getRunner_attempts_bounded Sim_monotone_clock 200 "r1" Sim.local_down).
Defined.


Lemma getRunner_duration_bounded_witness :
  let w := Sim.local3 in
  IdealClock (W := Sim.World) /\
  get_reply (factory_of (isRender_in w)) "r1" w = (Resolved Sim.handle7, w) /\
  0 <= clock (final (getRunner 20 "r1" w)) - clock w
    <= (if isRender_in w then 90000 else 10000).
Proof.
  intros w. split; [exact Sim_ideal_clock|]. split; [reflexivity|].
  apply (getRunner_duration_bounded Sim_ideal_clock 20 "r1" w w Sim.handle7).
  reflexivity.
Defined.

Lemma getRunner_budget_spent_before_first_attempt_witness :
  let w := SkewSim.mkWorld 0 10000 in
  let w2 := SkewSim.mkWorld 10000 10000 in
  let w3 := SkewSim.mkWorld 20000 10000 in
  let runner := mkRunner 7%N in
  get_reply (factory_of (isRender_in w)) "r1" w = (Resolved runner, w) /\
  Date_now w = (0, w2) /\
  Date_now w2 = (10000, w3) /\
  timeoutMs (isRender_in w) <= 10000 - 0 /\
  (getRunner 5 "r1" w =
     (Threw (NewError (not_started_message "r1" (timeoutMs (isRender_in w)))), w3,
      [EvEnv "IS_RENDER" (process_env w "IS_RENDER");
       EvGet (factory_of (isRender_in w)) "r1" (Resolved runner);
       EvNow 0; EvNow 10000]) /\
   attempts (trace (getRunner 5 "r1" w)) = 0%nat).
Proof.
  intros w w2 w3 runner.
  split; [reflexivity|]. split; [reflexivity|]. split; [reflexivity|].
  split; [vm_compute; discriminate|].
  apply (getRunner_budget_spent_before_first_attempt 5 "r1" w w w2 w3 runner 0 10000).
  - reflexivity.
  - reflexivity.
  - reflexivity.
  - vm_compute. discriminate.
Defined.

(** ** Properties of the file service *)

Section FileServiceFacts.

Import FileService.

Context {W : Type} {S3 : S3Client W}.

Variable bucket : option string.
Variable toString : Buffer -> string.

(** Data chunks are pushed in the order they arrive. *)
Lemma listen_data (chunks : list Buffer) (rest : list StreamEvent) :
  forall acc : list Buffer,
    listen toString (map OnData chunks ++ rest) acc =
    listen toString rest (acc ++ chunks).
Proof.
  induction chunks as [|chunk chunks IH]; intros acc; cbn.
  - rewrite app_nil_r. reflexivity.
  - rewrite IH, <- app_assoc. reflexivity.
Qed.

Lemma map_Key_mkObject (fileNames : list string) :
  map Key (map (fun fileName => mkObject fileName) fileNames) = fileNames.
Proof.
  induction fileNames as [|n tl IH]; cbn; [reflexivity | rewrite IH; reflexivity].
Qed.

(** X5. [upload] never throws.  It sends one put carrying the bucket, the
    file name as key and the contents as body; it returns the file name when
    the store accepts the put, and otherwise logs the store's error once and
    returns [null]. *)
Theorem upload_never_throws (fileContents fileName : string) (w : W) :
  let command := PutObjectCommand bucket fileName fileContents in
  sent (effects (upload bucket fileContents fileName w)) = [command] /\
  world (upload bucket fileContents fileName w) = snd (client_send command w) /\
  ((resolved (fst (client_send command w)) = true /\
    result (upload bucket fileContents fileName w) = Done (Some fileName) /\
    filter is_logged (effects (upload bucket fileContents fileName w)) = []) \/
   (exists reason,
      fst (client_send command w) = Rejected reason /\
      result (upload bucket fileContents fileName w) = Done None /\
      filter is_logged (effects (upload bucket fileContents fileName w))
        = [Logged (Propagated reason)])).
Proof.
  cbv zeta. unfold upload, send, console_log, awaiting, emit. cbn.
  unfold eff_catch, eff_bind.
  destruct (client_send (PutObjectCommand bucket fileName fileContents) w)
    as [[out|reason] w1]; cbn.
  - split; [reflexivity|]. split; [reflexivity|]. left. repeat split.
  - split; [reflexivity|]. split; [reflexivity|]. right.
    exists reason. repeat split.
Qed.

(** X6. When the store answers with a stream that ends, [getFile] resolves
    with the decoding of all chunks received before the end, concatenated in
    order: the result depends on the bytes only, not on how the stream cuts
    them, and whatever the stream emits after ['end'] is ignored. *)
Theorem getFile_concatenates_chunks
    (fileName : string) (w w1 : W) (response : CommandOutput)
    (chunks : list Buffer) (rest : list StreamEvent) :
  client_send (GetObjectCommand bucket fileName) w = (Resolved response, w1) ->
  Body response = ReadableStream (map OnData chunks ++ OnEnd :: rest) ->
  getFile bucket toString fileName w =
    (Fulfilled (toString (Buffer_concat chunks)), w1,
     [Sent (GetObjectCommand bucket fileName) (Resolved response)]).
Proof.
  intros Hsend Hbody. unfold getFile. cbv zeta. rewrite Hsend, Hbody.
  rewrite listen_data. reflexivity.
Qed.

(** X7. When the stream reports an error before it ends, [getFile] rejects
    with that error; the chunks already received are dropped, and a later
    ['end'] does not turn the rejection into a result. *)
Theorem getFile_stream_error_rejects
    (fileName : string) (w w1 : W) (response : CommandOutput)
    (chunks : list Buffer) (err : Reason) (rest : list StreamEvent) :
  client_send (GetObjectCommand bucket fileName) w = (Resolved response, w1) ->
  Body response = ReadableStream (map OnData chunks ++ OnError err :: rest) ->
  promise (getFile bucket toString fileName w) = RejectedWith (Propagated err).
Proof.
  intros Hsend Hbody. unfold getFile, promise. cbv zeta. rewrite Hsend, Hbody.
  cbn [fst]. rewrite listen_data. reflexivity.
Qed.

(** X8. [getFile] has no timeout of its own: if the stream delivers data but
    neither ends nor fails, the promise stays pending. *)
Theorem getFile_pending_without_end
    (fileName : string) (w w1 : W) (response : CommandOutput) (chunks : list Buffer) :
  client_send (GetObjectCommand bucket fileName) w = (Resolved response, w1) ->
  Body response = ReadableStream (map OnData chunks) ->
  promise (getFile bucket toString fileName w) = Pending.
Proof.
  intros Hsend Hbody. unfold getFile, promise. cbv zeta. rewrite Hsend, Hbody.
  cbn [fst]. rewrite <- (app_nil_r (map OnData chunks)), listen_data. reflexivity.
Qed.

(** X9. When the store answers a get without a readable body (no body, or
    a body of another kind), [getFile] rejects with the fixed message. *)
Theorem getFile_rejects_without_stream
    (fileName : string) (w w1 : W) (response : CommandOutput) :
  client_send (GetObjectCommand bucket fileName) w = (Resolved response, w1) ->
  (forall emits, Body response <> ReadableStream emits) ->
  promise (getFile bucket toString fileName w) =
    RejectedWith (NewError "Response body is undefined or not a Readable stream").
Proof.
  intros Hsend Hbody. unfold getFile, promise. cbv zeta. rewrite Hsend. cbn [fst].
  destruct (Body response) as [| |emits]; try reflexivity.
  exfalso. exact (Hbody emits eq_refl).
Qed.

(** X10. The three methods treat an unreachable store differently: [upload]
    swallows the error (it logs it and returns [null]), while [getFile] and
    [deleteFiles] hand the store's error to the caller unchanged. *)
Theorem unreachable_store_outcomes
    (reason : Reason) (fileContents fileName : string) (fileNames : list string) (w : W) :
  unreachable reason ->
  result (upload bucket fileContents fileName w) = Done None /\
  filter is_logged (effects (upload bucket fileContents fileName w))
    = [Logged (Propagated reason)] /\
  promise (getFile bucket toString fileName w) = RejectedWith (Propagated reason) /\
  result (deleteFiles bucket fileNames w) = Raised (Propagated reason).
Proof.
  intros Hdown.
  pose proof (Hdown (PutObjectCommand bucket fileName fileContents) w) as Hput.
  pose proof (Hdown (GetObjectCommand bucket fileName) w) as Hgetc.
  pose proof (Hdown (DeleteObjectsCommand bucket
                       (map (fun n => mkObject n) fileNames)) w) as Hdel.
  unfold upload, getFile, deleteFiles, send, console_log, awaiting, emit,
    result, promise, effects. cbn. unfold eff_catch, eff_bind.
  destruct (client_send (PutObjectCommand bucket fileName fileContents) w)
    as [[o1|r1] w1]; cbn in Hput; [discriminate|]. injection Hput as ->.
  destruct (client_send (GetObjectCommand bucket fileName) w)
    as [[o2|r2] w2]; cbn in Hgetc; [discriminate|]. injection Hgetc as ->.
  destruct (client_send (DeleteObjectsCommand bucket
                           (map (fun n => mkObject n) fileNames)) w)
    as [[o3|r3] w3]; cbn in Hdel; [discriminate|]. injection Hdel as ->.
  repeat split.
Qed.

(** X11. [deleteFiles] sends exactly one delete command whatever the number
    of names, also for no name at all; its objects carry the given names as
    keys, in the same order and with repetitions kept; the call completes
    exactly when the store accepts the command. *)
Theorem deleteFiles_one_request (fileNames : list string) (w : W) :
  exists objects : list ObjectIdentifier,
    sent (effects (deleteFiles bucket fileNames w))
      = [DeleteObjectsCommand bucket objects] /\
    map Key objects = fileNames /\
    world (deleteFiles bucket fileNames w)
      = snd (client_send (DeleteObjectsCommand bucket objects) w) /\
    (result (deleteFiles bucket fileNames w) = Done tt <->
     resolved (fst (client_send (DeleteObjectsCommand bucket objects) w)) = true).
Proof.
  exists (map (fun fileName => mkObject fileName) fileNames).
  unfold deleteFiles, send, awaiting, result, world, effects. cbn. unfold eff_bind.
  destruct (client_send (DeleteObjectsCommand bucket
                           (map (fun fileName => mkObject fileName) fileNames)) w)
    as [[out|reason] w1]; cbn.
  - split; [reflexivity|]. split; [apply map_Key_mkObject|].
    split; [reflexivity|]. split; reflexivity.
  - split; [reflexivity|]. split; [apply map_Key_mkObject|].
    split; [reflexivity|]. split; discriminate.
Qed.

(** X12. Round trip: on a store that hands back what was put, with a decoder
    that inverts the encoding of the contents, a file uploaded with success
    is read back unchanged by [getFile] under the returned name, however the
    store cuts it into chunks. *)
Theorem upload_then_getFile
    (encode : string -> Buffer) (fileContents fileName savedAs : string) (w : W) :
  keeps_objects encode ->
  toString (encode fileContents) = fileContents ->
  result (upload bucket fileContents fileName w) = Done (Some savedAs) ->
  promise (getFile bucket toString savedAs
             (world (upload bucket fileContents fileName w)))
    = Fulfilled fileContents.
Proof.
  intros Hstore Hcodec Hup.
  unfold upload, send, console_log, awaiting, emit, result, world in *.
  cbn in *. unfold eff_catch, eff_bind in *.
  destruct (client_send (PutObjectCommand bucket fileName fileContents) w)
    as [[out|reason] w1] eqn:Hput; cbn in *; [|discriminate].
  injection Hup as <-.
  destruct (Hstore bucket fileName fileContents w w1 out Hput)
    as [chunks [rest [w2 [Hget Hcat]]]].
  unfold promise, getFile. cbv zeta. rewrite Hget. cbn [fst Body].
  rewrite listen_data. cbn [listen app]. rewrite Hcat, Hcodec. reflexivity.
Qed.

End FileServiceFacts.

Lemma concat_bytes (s : string) : FileService.Buffer_concat (MemStore.bytes s) = s.
Proof.
  unfold FileService.Buffer_concat.
  induction s as [|a tl IH]; [reflexivity|].
  cbn [MemStore.bytes]. destruct tl as [|b tl'].
  - reflexivity.
  - cbn [MemStore.bytes] in IH |- *. cbn [String.concat].
    cbn [MemStore.bytes String.concat] in IH. rewrite IH. reflexivity.
Qed.

Lemma MemStore_keeps_objects :
  FileService.keeps_objects (W := MemStore.World) (fun s => s).
Proof.
  intros b key contents w w1 out Hput. cbn in Hput. injection Hput as _ <-.
  exists (MemStore.bytes contents), [], ((key, contents) :: w). split.
  - cbn. rewrite String.eqb_refl. reflexivity.
  - apply concat_bytes.
Qed.

Lemma DownStore_unreachable :
  FileService.unreachable (W := DownStore.World) "ECONNREFUSED"%string.
Proof. intros command w. reflexivity. Qed.

(** A file put in the in-memory store, read back, deleted, and missed. *)
Example store_session :
  let bucket := Some "nango-files"%string in
  let toString := fun b : FileService.Buffer => b in
  let w0 : MemStore.World := [] in
  let w1 := world (FileService.upload bucket "hello" "a.txt" w0) in
  let w2 := world (FileService.deleteFiles bucket
                     ["a.txt"%string; "b.txt"%string] w1) in
  result (FileService.upload bucket "hello" "a.txt" w0)
    = Done (Some "a.txt"%string) /\
  FileService.promise (FileService.getFile bucket toString "a.txt" w1)
    = FileService.Fulfilled "hello"%string /\
  result (FileService.deleteFiles bucket ["a.txt"%string; "b.txt"%string] w1)
    = Done tt /\
  FileService.promise (FileService.getFile bucket toString "a.txt" w2)
    = FileService.RejectedWith (Propagated "NoSuchKey"%string).
Proof. repeat split. Qed.

Lemma getFile_concatenates_chunks_witness :
  let w := ScriptedStore.three_chunks in
  let bucket := Some "nango-files"%string in
  let chunks := ["he"%string; "ll"%string; "o"%string] in
  let rest := [FileService.OnData "!"%string] in
  let response := FileService.mkOutput
    (FileService.ReadableStream
       (map FileService.OnData chunks ++ FileService.OnEnd :: rest)) in
  FileService.client_send (FileService.GetObjectCommand bucket "a.txt") w
    = (Resolved response, w) /\
  FileService.Body response =
    FileService.ReadableStream
      (map FileService.OnData chunks ++ FileService.OnEnd :: rest) /\
  FileService.getFile bucket (fun b => b) "a.txt" w =
    (FileService.Fulfilled (FileService.Buffer_concat chunks), w,
     [FileService.Sent (FileService.GetObjectCommand bucket "a.txt")
                       (Resolved response)]).
Proof.
  intros w bucket chunks rest response.
  split; [reflexivity|]. split; [reflexivity|].
  apply (getFile_concatenates_chunks bucket (fun b => b) "a.txt" w w response
           chunks rest); reflexivity.
Defined.

Lemma getFile_stream_error_rejects_witness :
  let w := ScriptedStore.broken in
  let bucket := Some "nango-files"%string in
  let chunks := ["he"%string; "ll"%string] in
  let response := FileService.mkOutput
    (FileService.ReadableStream
       (map FileService.OnData chunks
          ++ FileService.OnError "ECONNRESET"%string :: [FileService.OnEnd])) in
  FileService.client_send (FileService.GetObjectCommand bucket "a.txt") w
    = (Resolved response, w) /\
  FileService.Body response =
    FileService.ReadableStream
      (map FileService.OnData chunks
         ++ FileService.OnError "ECONNRESET"%string :: [FileService.OnEnd]) /\
  FileService.promise (FileService.getFile bucket (fun b => b) "a.txt" w)
    = FileService.RejectedWith (Propagated "ECONNRESET"%string).
Proof.
  intros w bucket chunks response.
  split; [reflexivity|]. split; [reflexivity|].
  apply (getFile_stream_error_rejects bucket (fun b => b) "a.txt" w w response
           chunks "ECONNRESET"%string [FileService.OnEnd]); reflexivity.
Defined.

Lemma getFile_pending_without_end_witness :
  let w := ScriptedStore.stalled in
  let bucket := Some "nango-files"%string in
  let chunks := ["he"%string; "ll"%string] in
  let response := FileService.mkOutput
    (FileService.ReadableStream (map FileService.OnData chunks)) in
  FileService.client_send (FileService.GetObjectCommand bucket "a.txt") w
    = (Resolved response, w) /\
  FileService.Body response
    = FileService.ReadableStream (map FileService.OnData chunks) /\
  FileService.promise (FileService.getFile bucket (fun b => b) "a.txt" w)
    = FileService.Pending.
Proof.
  intros w bucket chunks response.
  split; [reflexivity|]. split; [reflexivity|].
  apply (getFile_pending_without_end bucket (fun b => b) "a.txt" w w response chunks);
    reflexivity.
Defined.

Lemma getFile_rejects_without_stream_witness :
  let w := ScriptedStore.bodyless in
  let bucket := Some "nango-files"%string in
  let response := FileService.mkOutput FileService.Undefined in
  FileService.client_send (FileService.GetObjectCommand bucket "a.txt") w
    = (Resolved response, w) /\
  (forall emits, FileService.Body response <> FileService.ReadableStream emits) /\
  FileService.promise (FileService.getFile bucket (fun b => b) "a.txt" w) =
    FileService.RejectedWith
      (NewError "Response body is undefined or not a Readable stream").
Proof.
  intros w bucket response.
  split; [reflexivity|]. split; [intros emits; discriminate|].
  apply (getFile_rejects_without_stream bucket (fun b => b) "a.txt" w w response).
  - reflexivity.
  - intros emits. discriminate.
Defined.

Lemma unreachable_store_outcomes_witness :
  let bucket := Some "nango-files"%string in
  let reason := "ECONNREFUSED"%string in
  FileService.unreachable (W := DownStore.World) reason /\
  (result (FileService.upload bucket "hello" "a.txt" tt) = Done None /\
   filter FileService.is_logged
     (effects (FileService.upload bucket "hello" "a.txt" tt))
     = [FileService.Logged (Propagated reason)] /\
   FileService.promise (FileService.getFile bucket (fun b => b) "a.txt" tt)
     = FileService.RejectedWith (Propagated reason) /\
   result (FileService.deleteFiles bucket ["a.txt"%string] tt)
     = Raised (Propagated reason)).
Proof.
  intros bucket reason. split; [exact DownStore_unreachable|].
  apply (unreachable_store_outcomes bucket (fun b => b) reason "hello" "a.txt"
           ["a.txt"%string] tt).
  exact DownStore_unreachable.
Defined.

Lemma upload_then_getFile_witness :
  let bucket := Some "nango-files"%string in
  let w : MemStore.World := [("a.txt"%string, "old"%string)] in
  FileService.keeps_objects (W := MemStore.World) (fun s => s) /\
  (fun b : FileService.Buffer => b) ((fun s : string => s) "hello"%string)
    = "hello"%string /\
  result (FileService.upload bucket "hello" "a.txt" w) = Done (Some "a.txt"%string) /\
  FileService.promise
    (FileService.getFile bucket (fun b => b) "a.txt"
       (world (FileService.upload bucket "hello" "a.txt" w)))
    = FileService.Fulfilled "hello"%string.
Proof.
  intros bucket w. split; [exact MemStore_keeps_objects|].
  split; [reflexivity|]. split; [reflexivity|].
  apply (upload_then_getFile bucket (fun b => b) (fun s => s) "hello" "a.txt" "a.txt" w).
  - exact MemStore_keeps_objects.
  - reflexivity.
  - reflexivity.
Defined.

(** ** Properties of the integration picker *)

Section PickerFacts.

Import IntegrationsList.

Context {W : Type} {A : Api W}.

Variable integration : ApiPublicIntegration.

(** What one run of [triggerAuth] does, by the answers of the two
    collaborators. *)
Lemma triggerAuth_unfold (w : W) :
  triggerAuth integration w =
  match getProvider (provider integration) w with
  | (Rejected err, w1) =>
      (Done tt, w1,
       [SetLoading true; GetProvider (provider integration) (Rejected err);
        ConsoleLog err;
        SetError (Some "An error occurred while loading configuration"%string);
        SetLoading false])
  | (Resolved p, w1) =>
      match navigate "/go" w1 with
      | (Resolved u, w2) =>
          (Done u, w2,
           [SetLoading true; GetProvider (provider integration) (Resolved p);
            StoreSet (data p) integration; SetLoading false;
            Navigate "/go" (Resolved u)])
      | (Rejected err, w2) =>
          (Raised err, w2,
           [SetLoading true; GetProvider (provider integration) (Resolved p);
            StoreSet (data p) integration; SetLoading false;
            Navigate "/go" (Rejected err)])
      end
  end.
Proof.
  unfold triggerAuth, setLoading, setError, console_log, store_set, awaiting, emit.
  cbn. unfold eff_bind, eff_catch. cbn.
  destruct (getProvider (provider integration) w) as [[p|err] w1]; cbn;
    [|reflexivity].
  destruct (navigate "/go" w1) as [[u|err] w2]; reflexivity.
Qed.


(** X14. When the provider cannot be loaded, [triggerAuth] does not throw:
    it logs the error, sets the fixed error message, releases the loading
    flag, and neither writes to the store nor navigates. *)
Theorem triggerAuth_provider_failure (w w1 : W) (err : Reason) :
  getProvider (provider integration) w = (Rejected err, w1) ->
  triggerAuth integration w =
    (Done tt, w1,
     [SetLoading true; GetProvider (provider integration) (Rejected err);
      ConsoleLog err;
      SetError (Some "An error occurred while loading configuration"%string);
      SetLoading false]) /\
  filter is_store_set (effects (triggerAuth integration w)) = [] /\
  filter is_navigate (effects (triggerAuth integration w)) = [].
Proof.
  intros Hget. rewrite triggerAuth_unfold, Hget. repeat split.
Qed.

(** X15. [triggerAuth] throws only when the navigation fails, with the
    navigation's own error; by then the provider's data is in the store, no
    error message has been set and the loading flag is released. *)
Theorem triggerAuth_throws_only_navigation (w : W) (err : Reason) :
  result (triggerAuth integration w) = Raised err ->
  exists (p : ProviderSuccess) (w1 w2 : W),
    getProvider (provider integration) w = (Resolved p, w1) /\
    navigate "/go" w1 = (Rejected err, w2) /\
    effects (triggerAuth integration w) =
      [SetLoading true; GetProvider (provider integration) (Resolved p);
       StoreSet (data p) integration; SetLoading false;
       Navigate "/go" (Rejected err)].
Proof.
  rewrite triggerAuth_unfold.
  destruct (getProvider (provider integration) w) as [[p|e] w1] eqn:Hget;
    [|discriminate].
  destruct (navigate "/go" w1) as [[u|e] w2] eqn:Hnav; [discriminate|].
  intros [= ->]. exists p, w1, w2. repeat split. exact Hnav.
Qed.

Lemma onClick_unfold (loading : bool) (w : W) :
  onClick integration loading w =
  if loading then (Done tt, w, [PreventDefault; StopPropagation])
  else
    match triggerAuth integration w with
    | (Done _, w1, tr) => (Done tt, w1, PreventDefault :: StopPropagation :: tr)
    | (Raised err, w1, tr) =>
        (Done tt, w1,
         PreventDefault :: StopPropagation :: tr ++ [UnhandledRejection err])
    end.
Proof.
  unfold onClick, void, emit. cbn -[triggerAuth]. unfold eff_bind.
  destruct loading; [reflexivity|].
  destruct (triggerAuth integration w) as [[[u|err] w1] tr]; reflexivity.
Qed.

(** X16. [onClick] never throws and always cancels the default action and
    the propagation of the click first.  A click on a row that is loading
    does nothing else and asks for no provider; a click on an idle row asks
    for it exactly once. *)
Theorem onClick_ignored_while_loading (loading : bool) (w : W) :
  result (onClick integration loading w) = Done tt /\
  firstn 2 (effects (onClick integration loading w))
    = [PreventDefault; StopPropagation] /\
  (loading = true ->
   effects (onClick integration loading w) = [PreventDefault; StopPropagation] /\
   world (onClick integration loading w) = w) /\
  List.length (filter is_get_provider (effects (onClick integration loading w)))
    = (if loading then 0 else 1)%nat.
Proof.
  rewrite onClick_unfold. destruct loading.
  - repeat split.
  - rewrite triggerAuth_unfold.
    destruct (getProvider (provider integration) w) as [[p|err] w1];
      [destruct (navigate "/go" w1) as [[[]|err] w2]|]; cbn;
      (repeat split; discriminate).
Qed.

End PickerFacts.

Lemma triggerAuth_provider_failure_witness :
  let w := PickerSim.offline in
  let i := PickerSim.github in
  IntegrationsList.getProvider (IntegrationsList.provider i) w
    = (Rejected "503"%string, w) /\
  (IntegrationsList.triggerAuth i w =
     (Done tt, w,
      [IntegrationsList.SetLoading true;
       IntegrationsList.GetProvider (IntegrationsList.provider i)
         (Rejected "503"%string);
       IntegrationsList.ConsoleLog "503"%string;
       IntegrationsList.SetError
         (Some "An error occurred while loading configuration"%string);
       IntegrationsList.SetLoading false]) /\
   filter IntegrationsList.is_store_set
     (effects (IntegrationsList.triggerAuth i w)) = [] /\
   filter IntegrationsList.is_navigate
     (effects (IntegrationsList.triggerAuth i w)) = []).
Proof.
  intros w i. split; [reflexivity|].
  apply (triggerAuth_provider_failure i w w "503"%string). reflexivity.
Defined.

Lemma triggerAuth_throws_only_navigation_witness :
  let w := PickerSim.lost in
  let i := PickerSim.github in
  result (IntegrationsList.triggerAuth i w) = Raised "no route"%string /\
  exists (p : IntegrationsList.ProviderSuccess) (w1 w2 : PickerSim.World),
    IntegrationsList.getProvider (IntegrationsList.provider i) w
      = (Resolved p, w1) /\
    IntegrationsList.navigate "/go" w1 = (Rejected "no route"%string, w2) /\
    effects (IntegrationsList.triggerAuth i w) =
      [IntegrationsList.SetLoading true;
       IntegrationsList.GetProvider (IntegrationsList.provider i) (Resolved p);
       IntegrationsList.StoreSet (IntegrationsList.data p) i;
       IntegrationsList.SetLoading false;
       IntegrationsList.Navigate "/go" (Rejected "no route"%string)].
Proof.
  intros w i. split; [reflexivity|].
  apply (triggerAuth_throws_only_navigation i w "no route"%string). reflexivity.
Defined.

(** ** Properties of the sync row *)

Section RowFacts.

Import SyncRow.

Context {W : Type} {A : SyncApi W}.

Variable UserFacingSyncCommand : RunSyncCommand -> string.
Variable sync : SyncResponse.
Variable provider : option string.

(** The ways one started run of [syncCommand] can go. *)
Lemma syncCommand_unfold (command : RunSyncCommand) (nango_connection_id : Z)
    (scheduleId syncId syncName : string) (w : W) :
  let sent := RunCommand command scheduleId nango_connection_id syncId syncName
                (provider_or_empty provider) in
  syncCommand UserFacingSyncCommand provider false command nango_connection_id
    scheduleId syncId syncName w =
  match runCommandSyncAPI command scheduleId nango_connection_id syncId syncName
          (provider_or_empty provider) w with
  | (Rejected reason, w1) =>
      (Raised (Rejection reason), w1,
       [SetSyncCommandButtonsDisabled true; sent (Rejected reason)])
  | (Resolved res, w1) =>
      if status_is_200 res then
        match mutate sync_keys w1 with
        | (Rejected reason, w2) =>
            (Raised (Rejection reason), w2,
             [SetSyncCommandButtonsDisabled true; sent (Resolved res);
              Mutate (Rejected reason)])
        | (Resolved u, w2) =>
            (Done tt, w2,
             [SetSyncCommandButtonsDisabled true; sent (Resolved res);
              Mutate (Resolved u);
              Toast (Some ("The sync was successfully "
                             ++ UserFacingSyncCommand command)%string) success;
              SetSyncCommandButtonsDisabled false;
              SetShowPauseStartLoader false; SetShowInterruptLoader false;
              SetShowTriggerIncrementalLoader false])
        end
      else
        match res with
        | None =>
            (Raised (TypeError "error"), w1,
             [SetSyncCommandButtonsDisabled true; sent (Resolved res)])
        | Some r =>
            match json r with
            | Rejected reason =>
                (Raised (Rejection reason), w1,
                 [SetSyncCommandButtonsDisabled true; sent (Resolved res);
                  ReadJson (Rejected reason)])
            | Resolved Nullish =>
                (Raised (TypeError "error"), w1,
                 [SetSyncCommandButtonsDisabled true; sent (Resolved res);
                  ReadJson (Resolved Nullish)])
            | Resolved (Object e) =>
                (Done tt, w1,
                 [SetSyncCommandButtonsDisabled true; sent (Resolved res);
                  ReadJson (Resolved (Object e));
                  Toast e error_variant;
                  SetSyncCommandButtonsDisabled false;
                  SetShowPauseStartLoader false; SetShowInterruptLoader false;
                  SetShowTriggerIncrementalLoader false])
            end
        end
  end.
Proof.
  cbv zeta.
  unfold syncCommand, run, mutate_sync, read_json, error_of, toast, resetLoaders,
    awaiting, emit.
  cbn. unfold eff_bind. cbn.
  destruct (runCommandSyncAPI command scheduleId nango_connection_id syncId
              syncName (provider_or_empty provider) w) as [[res|reason] w1]; cbn;
    [|reflexivity].
  destruct (status_is_200 res) eqn:H200; cbn.
  - destruct (mutate sync_keys w1) as [[[]|reason] w2]; reflexivity.
  - destruct res as [r|]; cbn; [|reflexivity].
    unfold awaiting. destruct (json r) as [[|e]|reason]; reflexivity.
Qed.

(** The ways one started run of [confirmFullRefresh] can go. *)
Lemma confirmFullRefresh_unfold (w : W) :
  let sent := RunCommand RUN_FULL (schedule_id sync) (nango_connection_id sync)
                (id sync) (name sync) (provider_or_empty provider) in
  confirmFullRefresh sync provider false w =
  match runCommandSyncAPI RUN_FULL (schedule_id sync) (nango_connection_id sync)
          (id sync) (name sync) (provider_or_empty provider) w with
  | (Rejected reason, w1) =>
      (Raised (Rejection reason), w1,
       [SetSyncCommandButtonsDisabled true; SetModalShowSpinner true;
        sent (Rejected reason)])
  | (Resolved res, w1) =>
      if status_is_200 res then
        match mutate sync_keys w1 with
        | (Rejected reason, w2) =>
            (Raised (Rejection reason), w2,
             [SetSyncCommandButtonsDisabled true; SetModalShowSpinner true;
              sent (Resolved res); Mutate (Rejected reason)])
        | (Resolved u, w2) =>
            (Done tt, w2,
             [SetSyncCommandButtonsDisabled true; SetModalShowSpinner true;
              sent (Resolved res); Mutate (Resolved u);
              Toast (Some "The full resync was successfully triggered"%string) success;
              SetModalShowSpinner false; SetSyncCommandButtonsDisabled false;
              SetOpenConfirm false])
        end
      else
        match res with
        | None =>
            (Raised (TypeError "error"), w1,
             [SetSyncCommandButtonsDisabled true; SetModalShowSpinner true;
              sent (Resolved res)])
        | Some r =>
            match json r with
            | Rejected reason =>
                (Raised (Rejection reason), w1,
                 [SetSyncCommandButtonsDisabled true; SetModalShowSpinner true;
                  sent (Resolved res); ReadJson (Rejected reason)])
            | Resolved Nullish =>
                (Raised (TypeError "error"), w1,
                 [SetSyncCommandButtonsDisabled true; SetModalShowSpinner true;
                  sent (Resolved res); ReadJson (Resolved Nullish)])
            | Resolved (Object e) =>
                (Done tt, w1,
                 [SetSyncCommandButtonsDisabled true; SetModalShowSpinner true;
                  sent (Resolved res); ReadJson (Resolved (Object e));
                  Toast e error_variant;
                  SetModalShowSpinner false; SetSyncCommandButtonsDisabled false;
                  SetOpenConfirm false])
            end
        end
  end.
Proof.
  cbv zeta.
  unfold confirmFullRefresh, run, mutate_sync, read_json, error_of, toast,
    awaiting, emit.
  cbn. unfold eff_bind. cbn.
  destruct (runCommandSyncAPI RUN_FULL (schedule_id sync) (nango_connection_id sync)
              (id sync) (name sync) (provider_or_empty provider) w)
    as [[res|reason] w1]; cbn; [|reflexivity].
  destruct (status_is_200 res) eqn:H200; cbn.
  - destruct (mutate sync_keys w1) as [[[]|reason] w2]; reflexivity.
  - destruct res as [r|]; cbn; [|reflexivity].
    unfold awaiting. destruct (json r) as [[|e]|reason]; reflexivity.
Qed.

Ltac row_cases call w :=
  let res := fresh "res" in
  let w1 := fresh "w1" in
  destruct call as [[res|?reason] w1];
  [ destruct (status_is_200 res);
    [ destruct (mutate sync_keys w1) as [[[]|?reason] ?w2]
    | destruct res as [?r|];
      [ destruct (json r) as [[|?e]|?reason] | ] ]
  | ].

(** X17. [syncCommand] does nothing at all while the buttons are disabled.
    Otherwise it disables them and sends the command exactly once, with the
    identifiers it was given and the provider (or the empty string); if it
    completes, it has shown exactly one toast and its last four calls
    re-enable the buttons and reset the three loaders; if it throws, it has
    shown no toast, and the buttons stay disabled and the loaders as they
    were. *)
Theorem syncCommand_lock_discipline
    (disabled : bool) (command : RunSyncCommand) (nango_connection_id : Z)
    (scheduleId syncId syncName : string) (w : W) :
  let r := syncCommand UserFacingSyncCommand provider disabled command
             nango_connection_id scheduleId syncId syncName w in
  if disabled then r = (Done tt, w, [])
  else
    exists (reply : Reply (option Response)) (tl : list UiEvent),
      effects r =
        SetSyncCommandButtonsDisabled true
          :: RunCommand command scheduleId nango_connection_id syncId syncName
               (provider_or_empty provider) reply
          :: tl /\
      filter is_run_command tl = [] /\
      filter is_lock tl = [] /\
      match result r with
      | Done _ =>
          exists mid : list UiEvent,
            tl = mid ++ [SetSyncCommandButtonsDisabled false;
                         SetShowPauseStartLoader false;
                         SetShowInterruptLoader false;
                         SetShowTriggerIncrementalLoader false] /\
            filter is_unlock mid = [] /\
            List.length (filter is_toast mid) = 1%nat
      | Raised _ =>
          filter is_unlock tl = [] /\
          filter is_toast tl = [] /\
          ~ In (SetShowPauseStartLoader false) tl /\
          ~ In (SetShowInterruptLoader false) tl /\
          ~ In (SetShowTriggerIncrementalLoader false) tl
      end.
Proof.
  cbv zeta. destruct disabled; [reflexivity|].
  rewrite syncCommand_unfold. cbv zeta.
  row_cases (runCommandSyncAPI command scheduleId nango_connection_id syncId
               syncName (provider_or_empty provider) w) w;
    unfold effects, result; cbn [fst snd];
    eexists; eexists; (split; [reflexivity|]);
    (split; [reflexivity|]); (split; [reflexivity|]);
    try (repeat split; cbn; intros H;
         repeat (destruct H as [H|H]; [discriminate|]); exact H).
  - eexists [_; _]. repeat split.
  - eexists [_; _]. repeat split.
Qed.

(** X18. When the command endpoint resolves with no response at all,
    [syncCommand] throws a [TypeError] on reading [error] of [undefined]:
    nothing is shown to the user and the buttons are left disabled. *)
Theorem syncCommand_without_response
    (command : RunSyncCommand) (nango_connection_id : Z)
    (scheduleId syncId syncName : string) (w w1 : W) :
  runCommandSyncAPI command scheduleId nango_connection_id syncId syncName
    (provider_or_empty provider) w = (Resolved None, w1) ->
  syncCommand UserFacingSyncCommand provider false command nango_connection_id
    scheduleId syncId syncName w =
    (Raised (TypeError "error"), w1,
     [SetSyncCommandButtonsDisabled true;
      RunCommand command scheduleId nango_connection_id syncId syncName
        (provider_or_empty provider) (Resolved None)]).
Proof.
  intros Hcall. rewrite syncCommand_unfold. cbv zeta. rewrite Hcall. reflexivity.
Qed.

(** X19. What the user is told after a command got a response with a JSON
    object as body: on status 200 the cached [/api/v1/sync] entries are
    revalidated first and the toast is the success message ending in the
    user-facing name of the command; on any other status the cache is left
    alone and the toast shows the [error] property of the body. *)
Theorem syncCommand_reports_outcome
    (command : RunSyncCommand) (nango_connection_id : Z)
    (scheduleId syncId syncName : string) (w w1 : W)
    (r : Response) (e : option string) :
  runCommandSyncAPI command scheduleId nango_connection_id syncId syncName
    (provider_or_empty provider) w = (Resolved (Some r), w1) ->
  json r = Resolved (Object e) ->
  fst (mutate sync_keys w1) = Resolved tt ->
  let tr := effects (syncCommand UserFacingSyncCommand provider false command
                       nango_connection_id scheduleId syncId syncName w) in
  if Z.eqb (http_status r) 200 then
    exists before after,
      tr = before ++ Mutate (Resolved tt)
             :: Toast (Some ("The sync was successfully "
                               ++ UserFacingSyncCommand command)%string) success
             :: after /\
      filter is_toast before = [] /\ filter is_toast after = []
  else
    filter is_toast tr = [Toast e error_variant] /\
    (forall reply, ~ In (Mutate reply) tr).
Proof.
  intros Hcall Hjson Hmut. cbv zeta. rewrite syncCommand_unfold. cbv zeta.
  rewrite Hcall. unfold status_is_200.
  destruct (Z.eqb (http_status r) 200).
  - destruct (mutate sync_keys w1) as [[[]|reason] w2]; cbn in Hmut;
      [|discriminate].
    eexists [_; _], _. unfold effects. cbn [snd]. split; [reflexivity|].
    split; reflexivity.
  - rewrite Hjson. unfold effects. cbn [snd]. split; [reflexivity|].
    intros reply H. repeat (destruct H as [H|H]; [discriminate|]). exact H.
Qed.

(** X20. [confirmFullRefresh] does nothing while the buttons are disabled.
    Otherwise it disables them, shows the spinner and sends [RUN_FULL] once,
    for this row's own schedule, connection, sync id and name; if it
    completes, its last three calls hide the spinner, re-enable the buttons
    and close the dialog; if it throws, the spinner stays, the buttons stay
    disabled and the dialog stays open. *)
Theorem confirmFullRefresh_lock_discipline (disabled : bool) (w : W) :
  let r := confirmFullRefresh sync provider disabled w in
  if disabled then r = (Done tt, w, [])
  else
    exists (reply : Reply (option Response)) (tl : list UiEvent),
      effects r =
        SetSyncCommandButtonsDisabled true :: SetModalShowSpinner true
          :: RunCommand RUN_FULL (schedule_id sync) (nango_connection_id sync)
               (id sync) (name sync) (provider_or_empty provider) reply
          :: tl /\
      filter is_run_command tl = [] /\
      match result r with
      | Done _ =>
          exists mid : list UiEvent,
            tl = mid ++ [SetModalShowSpinner false;
                         SetSyncCommandButtonsDisabled false;
                         SetOpenConfirm false] /\
            List.length (filter is_toast mid) = 1%nat
      | Raised _ =>
          filter is_unlock tl = [] /\
          filter is_toast tl = [] /\
          ~ In (SetModalShowSpinner false) tl /\
          ~ In (SetOpenConfirm false) tl
      end.
Proof.
  cbv zeta. destruct disabled; [reflexivity|].
  rewrite confirmFullRefresh_unfold. cbv zeta.
  row_cases (runCommandSyncAPI RUN_FULL (schedule_id sync) (nango_connection_id sync)
               (id sync) (name sync) (provider_or_empty provider) w) w;
    unfold effects, result; cbn [fst snd];
    eexists; eexists; (split; [reflexivity|]); (split; [reflexivity|]);
    try (repeat split; cbn; intros H;
         repeat (destruct H as [H|H]; [discriminate|]); exact H).
  - eexists [_; _]. repeat split.
  - eexists [_; _]. repeat split.
Qed.

Ltac absurd_in H :=
  exfalso; cbn in H;
  repeat (destruct H as [H|H]; [discriminate|]); exact H.

Ltac distinct_entries :=
  repeat constructor; cbn;
  let H := fresh "H" in
  intros H; repeat (destruct H as [H|H]; [discriminate|]); exact H.

(** X21. The pause/resume entry says what its click does: it reads "Pause
    Schedule" exactly when the click sends [PAUSE], which is exactly when the
    schedule status is ['STARTED']; for every other status it reads "Resume
    Schedule" and the click sends [UNPAUSE]. *)
Theorem pause_label_matches_command :
  (pause_label sync = "Pause Schedule"%string <-> pause_command sync = PAUSE) /\
  (pause_label sync = "Resume Schedule"%string <-> pause_command sync = UNPAUSE) /\
  (pause_command sync = PAUSE <-> schedule_status sync = "STARTED"%string).
Proof.
  unfold pause_label, pause_command.
  destruct (String.eqb_spec (schedule_status sync) "STARTED") as [Heq|Hne]; cbn;
    repeat split; intros H; try discriminate; try reflexivity; try assumption.
  contradiction.
Qed.

(** X22. The menu always starts with the pause/resume entry and ends with
    the link to the logs.  In between it offers the cancellation exactly when
    the sync status is ['RUNNING'], and the two triggers exactly when it is
    not: never a cancellation together with a trigger, never none of them. *)
Theorem menu_offers_cancel_or_triggers :
  hd_error (menu sync) = Some PauseOrResume /\
  last (menu sync) PauseOrResume = ViewLogs /\
  (In CancelExecution (menu sync) <-> status sync = "RUNNING"%string) /\
  (In Trigger (menu sync) <-> status sync <> "RUNNING"%string) /\
  (In TriggerFullRefresh (menu sync) <-> In Trigger (menu sync)) /\
  NoDup (menu sync).
Proof.
  unfold menu.
  destruct (String.eqb_spec (status sync) "RUNNING") as [Heq|Hne]; cbn;
    (split; [reflexivity|]); (split; [reflexivity|]).
  - split; [split; [intros _; exact Heq | intros _; auto]|].
    split; [split; [intros H; absurd_in H | intros H; contradiction]|].
    split; [split; intros H; absurd_in H|].
    distinct_entries.
  - split; [split; [intros H; absurd_in H | intros H; contradiction]|].
    split; [split; [intros _; exact Hne | intros _; auto]|].
    split; [split; intros _; auto|].
    distinct_entries.
Qed.

(** X23. The status cell shows at most one tag.  A sync that never ran
    shows "NEVER RUN"; a latest run shows the tag of its status ("Paused"
    for PAUSED, "Failed" for STOPPED, "Syncing" for RUNNING, "Success" for
    SUCCESS), and no tag at all when the status is none of these four. *)
Theorem status_tags_at_most_one :
  (List.length (status_tags sync) <= 1)%nat /\
  (latest_sync_status sync = None -> status_tags sync = ["NEVER RUN"%string]) /\
  (latest_sync_status sync = Some "PAUSED"%string ->
   status_tags sync = ["Paused"%string]) /\
  (latest_sync_status sync = Some "STOPPED"%string ->
   status_tags sync = ["Failed"%string]) /\
  (latest_sync_status sync = Some "RUNNING"%string ->
   status_tags sync = ["Syncing"%string]) /\
  (latest_sync_status sync = Some "SUCCESS"%string ->
   status_tags sync = ["Success"%string]) /\
  (forall s, latest_sync_status sync = Some s ->
     (status_tags sync = [] <->
      s <> "PAUSED"%string /\ s <> "STOPPED"%string /\
      s <> "RUNNING"%string /\ s <> "SUCCESS"%string)).
Proof.
  unfold status_tags. destruct (latest_sync_status sync) as [s|].
  - split; [|split; [discriminate|]].
    + destruct (String.eqb_spec s "PAUSED") as [->|H1]; [cbn; lia|].
      destruct (String.eqb_spec s "STOPPED") as [->|H2]; [cbn; lia|].
      destruct (String.eqb_spec s "RUNNING") as [->|H3]; [cbn; lia|].
      destruct (String.eqb_spec s "SUCCESS") as [->|H4]; cbn; lia.
    + do 4 (split; [intros [= ->]; reflexivity|]).
      intros s' [= <-].
      destruct (String.eqb_spec s "PAUSED") as [->|H1];
        [cbn; split; [discriminate | intros [H _]; contradiction]|].
      destruct (String.eqb_spec s "STOPPED") as [->|H2];
        [cbn; split; [discriminate | intros [_ [H _]]; contradiction]|].
      destruct (String.eqb_spec s "RUNNING") as [->|H3];
        [cbn; split; [discriminate | intros [_ [_ [H _]]]; contradiction]|].
      destruct (String.eqb_spec s "SUCCESS") as [->|H4];
        [cbn; split; [discriminate | intros [_ [_ [_ H]]]; contradiction]|].
      cbn. split; auto.
  - split; [cbn; lia|]. split; [reflexivity|].
    do 4 (split; [discriminate|]). intros s [=].
Qed.

End RowFacts.

(** A click on "Pause Schedule" that the backend accepts. *)
Example pause_accepted :
  SyncRow.pause_onClick RowSim.nice RowSim.contacts (Some "github"%string) false
    RowSim.accepted =
  (Done tt,
   RowSim.mkWorld (RowSim.command_reply RowSim.accepted) (Resolved tt) 1,
   [SyncRow.SetShowPauseStartLoader true;
    SyncRow.SetSyncCommandButtonsDisabled true;
    SyncRow.RunCommand SyncRow.PAUSE "sched-1" 42 "sync-1" "contacts" "github"
      (RowSim.command_reply RowSim.accepted);
    SyncRow.Mutate (Resolved tt);
    SyncRow.Toast (Some "The sync was successfully paused"%string) SyncRow.success;
    SyncRow.SetSyncCommandButtonsDisabled false;
    SyncRow.SetShowPauseStartLoader false;
    SyncRow.SetShowInterruptLoader false;
    SyncRow.SetShowTriggerIncrementalLoader false]).
Proof. reflexivity. Qed.

Lemma syncCommand_without_response_witness :
  let w := RowSim.silent in
  let w1 := RowSim.mkWorld (Resolved None) (Resolved tt) 1 in
  SyncRow.runCommandSyncAPI SyncRow.RUN "sched-1" 42 "sync-1" "contacts"
    (SyncRow.provider_or_empty None) w = (Resolved None, w1) /\
  SyncRow.syncCommand RowSim.nice None false SyncRow.RUN 42
    "sched-1" "sync-1" "contacts" w =
    (Raised (SyncRow.TypeError "error"), w1,
     [SyncRow.SetSyncCommandButtonsDisabled true;
      SyncRow.RunCommand SyncRow.RUN "sched-1" 42 "sync-1" "contacts"
        (SyncRow.provider_or_empty None) (Resolved None)]).
Proof.
  intros w w1. split; [reflexivity|].
  apply (syncCommand_without_response RowSim.nice None SyncRow.RUN 42
           "sched-1" "sync-1" "contacts" w w1).
  reflexivity.
Defined.

Lemma syncCommand_reports_outcome_witness :
  let w := RowSim.refused in
  let w1 := RowSim.mkWorld (RowSim.command_reply RowSim.refused) (Resolved tt) 1 in
  let e := Some "sync is already running"%string in
  let r := SyncRow.mkResponse 400 (Resolved (SyncRow.Object e)) in
  let tr := effects (SyncRow.syncCommand RowSim.nice (Some "github"%string) false
                       SyncRow.RUN 42 "sched-1" "sync-1" "contacts" w) in
  SyncRow.runCommandSyncAPI SyncRow.RUN "sched-1" 42 "sync-1" "contacts"
    (SyncRow.provider_or_empty (Some "github"%string)) w = (Resolved (Some r), w1) /\
  SyncRow.json r = Resolved (SyncRow.Object e) /\
  fst (SyncRow.mutate SyncRow.sync_keys w1) = Resolved tt /\
  (if Z.eqb (SyncRow.http_status r) 200 then
     exists before after,
       tr = before ++ SyncRow.Mutate (Resolved tt)
              :: SyncRow.Toast (Some ("The sync was successfully "
                                        ++ RowSim.nice SyncRow.RUN)%string)
                   SyncRow.success
              :: after /\
       filter SyncRow.is_toast before = [] /\ filter SyncRow.is_toast after = []
   else
     filter SyncRow.is_toast tr = [SyncRow.Toast e SyncRow.error_variant] /\
     (forall reply, ~ In (SyncRow.Mutate reply) tr)).
Proof.
  intros w w1 e r tr.
  split; [reflexivity|]. split; [reflexivity|]. split; [reflexivity|].
  apply (syncCommand_reports_outcome RowSim.nice (Some "github"%string)
           SyncRow.RUN 42 "sched-1" "sync-1" "contacts" w w1 r e); reflexivity.
Defined.
